(** * plot_utils: the date normaliser [as_date] and its kernel [str2date_kernel]

    A shallow embedding of the two functions of [src/plot_utils.py] that
    turn heterogeneous date representations into [datetime.date] values,
    together with the Python built-ins they call.

    Modelling conventions.
    - A Python [str] is a Rocq [string]; a character is the code point of
      the same number, so the model covers the code points 0..255.
    - Python's [int] is [Z]; a binary64 float is a [spec_float].
    - Exceptions are values of [exn]; a computation that can raise and can
      print is a state-passing function over the text written to stdout.
    - [int(str)] follows CPython 3.6 and later (underscores between digits);
      the configurable limit on the number of digits is not modelled.
    - [strptime] reads the month names of the LC_TIME locale in force when
      it is called.  [str2date_kernel] and [as_date] are the two functions
      under the C / English locale; [str2date_kernel_in] and [as_date_in]
      are the same two functions under any locale.
    - [int()] of a numpy array or of a pandas Series raises TypeError.
    - [as_date] first reads the Timestamp class from pandas, at a path that
      depends on [pd.__version__]; the model takes the class as found. *)

From Stdlib Require Import ZArith Ascii String List Bool Lia.
From Stdlib Require Import DecimalString SpecFloat.
From stdpp Require Import base list.

#[local] Set Warnings "-register-all".

Local Open Scope string_scope.
Local Open Scope list_scope.
Local Open Scope Z_scope.

(** ** Exceptions, results and the print-and-raise monad *)

Inductive exn : Type :=
| TypeError
| ValueError
| OverflowError
| UnboundLocalError
| IndexError.

Inductive result (A : Type) : Type :=
| Ok (a : A)
| Raise (e : exn).

Arguments Ok {A} a.
Arguments Raise {A} e.

Definition is_Ok {A} (r : result A) : bool :=
  match r with Ok _ => true | Raise _ => false end.

Definition rbind {A B} (r : result A) (k : A -> result B) : result B :=
  match r with
  | Ok a => k a
  | Raise e => Raise e
  end.

(** The text written by [print], one entry per call, oldest first. *)
Definition stdout : Type := list string.

Definition M (A : Type) : Type := stdout -> stdout * result A.

Definition ret {A} (a : A) : M A := fun w => (w, Ok a).

Definition raise {A} (e : exn) : M A := fun w => (w, Raise e).

Definition lift {A} (r : result A) : M A := fun w => (w, r).

Definition bind {A B} (m : M A) (k : A -> M B) : M B :=
  fun w =>
    match m w with
    | (w', Ok a) => k a w'
    | (w', Raise e) => (w', Raise e)
    end.

Definition print (s : string) : M unit := fun w => (w ++ [s], Ok tt).

(** [try: body except e: handler] *)
Definition try_except {A} (body : M A) (e : exn) (handler : M A) : M A :=
  fun w =>
    match body w with
    | (w', Raise e') =>
        if match e, e' with
           | TypeError, TypeError | ValueError, ValueError
           | OverflowError, OverflowError
           | UnboundLocalError, UnboundLocalError
           | IndexError, IndexError => true
           | _, _ => false
           end
        then handler w' else (w', Raise e')
    | r => r
    end.

Declare Scope py_scope.
Delimit Scope py_scope with py.
Notation "x <- m ;; k" := (bind m (fun x => k))
  (at level 100, m at next level, right associativity) : py_scope.
Notation "m ;;; k" := (bind m (fun _ => k))
  (at level 100, right associativity) : py_scope.

(** Reading a local variable that may not have been assigned. *)
Definition load {A} (v : option A) : M A :=
  match v with
  | Some a => ret a
  | None => raise UnboundLocalError
  end.

(** ** Python built-ins used by the two functions *)

Module Py.

(** *** Characters and [str] methods *)

Definition ord (c : ascii) : Z := Z.of_N (N_of_ascii c).

Definition in_range (lo hi x : Z) : bool := (lo <=? x) && (x <=? hi).

Definition is_ascii_digit (c : ascii) : bool := in_range 48 57 (ord c).

(** [c.isdigit()]: the decimal digits and the superscripts 2, 3 and 1. *)
Definition isdigit_char (c : ascii) : bool :=
  let n := ord c in
  in_range 48 57 n || (n =? 178) || (n =? 179) || (n =? 185).

(** [c.isalpha()] on the code points 0..255. *)
Definition isalpha_char (c : ascii) : bool :=
  let n := ord c in
  in_range 65 90 n || in_range 97 122 n
  || (n =? 170) || (n =? 181) || (n =? 186)
  || in_range 192 214 n || in_range 216 246 n || in_range 248 255 n.

(** The characters [int()] strips at both ends. *)
Definition isspace_int (c : ascii) : bool :=
  let n := ord c in
  in_range 9 13 n || (n =? 32) || (n =? 133) || (n =? 160).

Fixpoint str_forall (p : ascii -> bool) (s : string) : bool :=
  match s with
  | EmptyString => true
  | String c r => p c && str_forall p r
  end.

Fixpoint str_contains (c : ascii) (s : string) : bool :=
  match s with
  | EmptyString => false
  | String c' r => Ascii.eqb c' c || str_contains c r
  end.

Definition nonempty (s : string) : bool :=
  match s with EmptyString => false | String _ _ => true end.

(** [s.isdigit()] and [s.isalpha()]: false on the empty string. *)
Definition isdigit (s : string) : bool := nonempty s && str_forall isdigit_char s.
Definition isalpha (s : string) : bool := nonempty s && str_forall isalpha_char s.

Definition len (s : string) : Z := Z.of_nat (String.length s).

(** [s[:n]] and [s[n:]] for [n >= 0]. *)
Fixpoint slice_to (n : nat) (s : string) : string :=
  match n, s with
  | S n', String c r => String c (slice_to n' r)
  | _, _ => EmptyString
  end.

Fixpoint slice_from (n : nat) (s : string) : string :=
  match n, s with
  | S n', String _ r => slice_from n' r
  | _, _ => s
  end.

(** [s[i]] for [i >= 0]. *)
Definition index (s : string) (i : nat) : result ascii :=
  match String.get i s with
  | Some c => Ok c
  | None => Raise IndexError
  end.

(** [s.split(sep)] for a one-character separator. *)
Fixpoint split (sep : ascii) (s : string) : list string :=
  match s with
  | EmptyString => [EmptyString]
  | String c r =>
      if Ascii.eqb c sep then EmptyString :: split sep r
      else match split sep r with
           | h :: t => String c h :: t
           | [] => [String c EmptyString]
           end
  end.

(** [a, b = l] and [a, b, c = l] *)
Definition unpack2 {A} (l : list A) : result (A * A) :=
  match l with
  | [a; b] => Ok (a, b)
  | _ => Raise ValueError
  end.

Definition unpack3 {A} (l : list A) : result (A * A * A) :=
  match l with
  | [a; b; c] => Ok (a, b, c)
  | _ => Raise ValueError
  end.

(** *** [int(s)] for a string, base 10 *)

Fixpoint lstrip (s : string) : string :=
  match s with
  | String c r => if isspace_int c then lstrip r else s
  | EmptyString => s
  end.

(** The digits after the sign: single underscores between digits are
    skipped, and only white space may follow the last digit. *)
Fixpoint int_digits (s : string) (acc : Z) (after_digit : bool) : option Z :=
  match s with
  | EmptyString => if after_digit then Some acc else None
  | String c r =>
      if is_ascii_digit c then int_digits r (10 * acc + (ord c - 48)) true
      else if Ascii.eqb c "_" then
        if after_digit then int_digits r acc false else None
      else if isspace_int c then
        if after_digit && str_forall isspace_int r then Some acc else None
      else None
  end.

Definition int_of_str (s : string) : result Z :=
  let body := lstrip s in
  let '(neg, body) :=
    match body with
    | String "-" r => (true, r)
    | String "+" r => (false, r)
    | _ => (false, body)
    end in
  match int_digits body 0 false with
  | Some v => Ok (if neg then - v else v)
  | None => Raise ValueError
  end.

(** [str(n)] for an integer. *)
Definition str_of_int (n : Z) : string := NilZero.string_of_int (Z.to_int n).

(** [int(x)] for a float: truncation towards zero. *)
Definition int_of_float (f : spec_float) : result Z :=
  match f with
  | S754_zero _ => Ok 0
  | S754_infinity _ => Raise OverflowError
  | S754_nan => Raise ValueError
  | S754_finite s m e =>
      let a := Z.shiftl (Z.pos m) e in
      Ok (if s then - a else a)
  end.

(** *** [datetime.strptime(s, '%b').month] and [... '%B' ...] *)

Definition lower_char (c : ascii) : ascii :=
  if in_range 65 90 (ord c) then ascii_of_N (N_of_ascii c + 32) else c.

Fixpoint lower (s : string) : string :=
  match s with
  | EmptyString => EmptyString
  | String c r => String (lower_char c) (lower r)
  end.

Definition month_abbr : list string :=
  ["jan"; "feb"; "mar"; "apr"; "may"; "jun";
   "jul"; "aug"; "sep"; "oct"; "nov"; "dec"].

Definition month_name : list string :=
  ["january"; "february"; "march"; "april"; "may"; "june";
   "july"; "august"; "september"; "october"; "november"; "december"].

Fixpoint position (x : string) (l : list string) (i : Z) : option Z :=
  match l with
  | [] => None
  | y :: r => if String.eqb x y then Some i else position x r (i + 1)
  end.

(** The whole of [s] must be one of [names], compared without case. *)
Definition strptime_month (names : list string) (s : string) : result Z :=
  match position (lower s) names 1 with
  | Some m => Ok m
  | None => Raise ValueError
  end.


(** *** [datetime.date] *)

Record date : Type := mkdate { year : Z; month : Z; day : Z }.

Definition is_leap (y : Z) : bool :=
  (y mod 4 =? 0) && (negb (y mod 100 =? 0) || (y mod 400 =? 0)).

Definition days_in_month (y m : Z) : Z :=
  if m =? 2 then (if is_leap y then 29 else 28)
  else if (m =? 4) || (m =? 6) || (m =? 9) || (m =? 11) then 30
  else 31.

(** *** Objects

    The classes [as_date] tells apart.  [PFloat] is the built-in float and
    [PNpFloat64] is numpy's subclass of it; [PNpInt64] is numpy's integer,
    which is not an instance of [int].  [PSeries] and [PNdarray] carry the
    elements that iterating over them yields.  [POther] is an object of any
    other class (a dict, a tuple, a datetime ...), given by the text of its
    type and by its length when it has one; it has no conversion to [int]. *)
Inductive pyobj : Type :=
| PStr (s : string)
| PInt (n : Z)
| PBool (b : bool)
| PFloat (f : spec_float)
| PNpFloat64 (f : spec_float)
| PNpInt64 (n : Z)
| PDate (d : date)
| PTimestamp (ns : Z)
| PNone
| PList (l : list pyobj)
| PSeries (l : list pyobj)
| PNdarray (l : list pyobj)
| POther (type_repr : string) (length : option nat).

Definition isinstance_str (x : pyobj) : bool :=
  match x with PStr _ => true | _ => false end.

(** [bool] is a subclass of [int]. *)
Definition isinstance_int (x : pyobj) : bool :=
  match x with PInt _ | PBool _ => true | _ => false end.

Definition isinstance_np_float64 (x : pyobj) : bool :=
  match x with PNpFloat64 _ => true | _ => false end.

Definition isinstance_list (x : pyobj) : bool :=
  match x with PList _ => true | _ => false end.

Definition isinstance_Series (x : pyobj) : bool :=
  match x with PSeries _ => true | _ => false end.

Definition isinstance_ndarray (x : pyobj) : bool :=
  match x with PNdarray _ => true | _ => false end.

Definition isinstance_Timestamp (x : pyobj) : bool :=
  match x with PTimestamp _ => true | _ => false end.

(** [type(x) == dt.date] *)
Definition type_is_date (x : pyobj) : bool :=
  match x with PDate _ => true | _ => false end.

(** [list(x)] for the two array classes. *)
Definition to_list (x : pyobj) : pyobj :=
  match x with
  | PSeries l | PNdarray l => PList l
  | _ => x
  end.

(** ['%s' % type(x)] *)
Definition type_repr (x : pyobj) : string :=
  match x with
  | PStr _ => "<class 'str'>"
  | PInt _ => "<class 'int'>"
  | PBool _ => "<class 'bool'>"
  | PFloat _ => "<class 'float'>"
  | PNpFloat64 _ => "<class 'numpy.float64'>"
  | PNpInt64 _ => "<class 'numpy.int64'>"
  | PDate _ => "<class 'datetime.date'>"
  | PTimestamp _ => "<class 'pandas._libs.tslibs.timestamps.Timestamp'>"
  | PNone => "<class 'NoneType'>"
  | PList _ => "<class 'list'>"
  | PSeries _ => "<class 'pandas.core.series.Series'>"
  | PNdarray _ => "<class 'numpy.ndarray'>"
  | POther r _ => r
  end.

(** [len(x)] *)
Definition py_len (x : pyobj) : result Z :=
  match x with
  | PStr s => Ok (len s)
  | PList l | PSeries l | PNdarray l => Ok (Z.of_nat (List.length l))
  | POther _ (Some n) => Ok (Z.of_nat n)
  | _ => Raise TypeError
  end.

(** [int(x)]: numpy and pandas refuse to convert an array or a Series, of
    one element as of any other length. *)
Definition py_int (x : pyobj) : result Z :=
  match x with
  | PStr s => int_of_str s
  | PInt n | PNpInt64 n => Ok n
  | PBool b => Ok (if b then 1 else 0)
  | PFloat f | PNpFloat64 f => int_of_float f
  | _ => Raise TypeError
  end.

(** An argument of [datetime.date(...)]: an integer that fits a C int. *)
Definition c_int (x : pyobj) : result Z :=
  match x with
  | PInt n | PNpInt64 n =>
      if in_range (- 2147483648) 2147483647 n then Ok n else Raise OverflowError
  | PBool b => Ok (if b then 1 else 0)
  | _ => Raise TypeError
  end.

(** [datetime.date(y, m, d)]: the three arguments are converted in order,
    then the year, the month and the day are checked in order. *)
Definition date_new (y m d : pyobj) : result date :=
  rbind (c_int y) (fun y =>
  rbind (c_int m) (fun m =>
  rbind (c_int d) (fun d =>
    if negb (in_range 1 9999 y) then Raise ValueError
    else if negb (in_range 1 12 m) then Raise ValueError
    else if negb (in_range 1 (days_in_month y m) d) then Raise ValueError
    else Ok (mkdate y m d)))).

Definition len_list (l : list pyobj) : Z := Z.of_nat (List.length l).

(** [l[j]] for a list. *)
Definition list_index (l : list pyobj) (j : nat) : result pyobj :=
  match l !! j with
  | Some x => Ok x
  | None => Raise IndexError
  end.

End Py.

Import Py.

(** ** The two functions of [plot_utils.py] *)

Local Open Scope py_scope.

Definition nl : string := String "010"%char EmptyString.

(** [s[i] == c]; the source reads it only behind a test of [len(s)] that
    makes the index valid, and short-circuits otherwise. *)
Definition char_at_is (s : string) (i : nat) (c : ascii) : bool :=
  match index s i with
  | Ok c' => Ascii.eqb c' c
  | Raise _ => false
  end.

(** The six guards of [str2date_kernel], in the order of the source. *)
Definition guard1 (date_ : string) : bool :=
  str_contains "-" date_ && (len date_ =? 8).
Definition guard2 (date_ : string) : bool :=
  str_contains " " date_.
Definition guard3 (date_ : string) : bool :=
  (len date_ =? 6) && isdigit date_.
Definition guard4 (date_ : string) : bool :=
  (len date_ =? 7) && char_at_is date_ 4 "-" && negb (isdigit date_).
Definition guard5 (date_ : string) : bool :=
  (len date_ =? 10) && negb (isdigit date_).
Definition guard6 (date_ : string) : bool :=
  (len date_ =? 6) && char_at_is date_ 3 "-"
  && isalpha (slice_to 3 date_) && isdigit (slice_from 4 date_).

(** The locals [year], [month] and [day] at the end of the conditional:
    [None] is a name that was never assigned. *)
Definition locals : Type := option pyobj * option pyobj * pyobj.

Definition str2date_kernel (date_ : string) : M date :=
  let day := PNone in
  vars <-
    (if guard1 date_ then
       p <- lift (unpack2 (split "-" date_)) ;;
       let '(month, year) := p in
       month <- lift (strptime_month month_abbr month) ;;
       ret (Some (PStr year), Some (PInt month), day)
     else if guard2 date_ then
       p <- lift (unpack2 (split " " date_)) ;;
       let '(month, year) := p in
       month <- lift (strptime_month month_name month) ;;
       year <- lift (int_of_str year) ;;
       ret (Some (PInt year), Some (PInt month), day)
     else if guard3 date_ then
       year <- lift (int_of_str (slice_to 4 date_)) ;;
       month <- lift (int_of_str (slice_from 4 date_)) ;;
       ret (Some (PInt year), Some (PInt month), day)
     else if guard4 date_ then
       p <- lift (unpack2 (split "-" date_)) ;;
       let '(year, month) := p in
       year <- lift (int_of_str year) ;;
       month <- lift (int_of_str month) ;;
       ret (Some (PInt year), Some (PInt month), day)
     else if guard5 date_ then
       p <- lift (unpack3 (split "-" date_)) ;;
       let '(year, month, day) := p in
       year <- lift (int_of_str year) ;;
       month <- lift (int_of_str month) ;;
       day <- lift (int_of_str day) ;;
       ret (Some (PInt year), Some (PInt month), PInt day)
     else if guard6 date_ then
       p <- lift (unpack2 (split "-" date_)) ;;
       let '(month, year) := p in
       month <- lift (strptime_month month_abbr month) ;;
       year <- lift (int_of_str year) ;;
       let year := year + 2000 in
       ret (Some (PInt year), Some (PInt month), day)
     else
       print "*****  Edge case encountered! (Date format not recognized.)  *****" ;;;
       print (nl ++ "User supplied " ++ date_ ++ ", which is not recognized." ++ nl)%string ;;;
       ret (None, None, day)) ;;
  let '(year, month, day) := (vars : locals) in
  match day with
  | PNone =>
      y <- load year ;; m <- load month ;; lift (date_new y m (PInt 1))
  | _ =>
      y <- load year ;; m <- load month ;; lift (date_new y m day)
  end.

(** The body of [for j in range(nr)]: [date_] keeps its value from one
    turn to the next, and is unassigned before the first assignment. *)
Fixpoint as_date_loop (str_date : list pyobj) (js : list nat)
    (date_ : option string) (date_list : list pyobj) : M (list pyobj) :=
  match js with
  | [] => ret date_list
  | j :: js' =>
      x <- lift (list_index str_date j) ;;
      date_ <- (match x with
                | PStr s =>
                    if isdigit s
                    then n <- lift (py_int x) ;; ret (Some (str_of_int n))
                    else ret date_
                | _ => ret date_
                end) ;;
      date_ <- (match x with
                | PStr s => if negb (isdigit s) then ret (Some s) else ret date_
                | _ => ret date_
                end) ;;
      date_ <- (if isinstance_int x || isinstance_np_float64 x
                then n <- lift (py_int x) ;; ret (Some (str_of_int n))
                else ret date_) ;;
      arg <- load date_ ;;
      d <- str2date_kernel arg ;;
      as_date_loop str_date js' date_ (<[j := PDate d]> date_list)
  end.

Definition as_date (str_date : pyobj) : M pyobj :=
  date_list <-
    (if isinstance_Timestamp str_date then
       ret (Some str_date)
     else
       let str_date := if isinstance_Series str_date then to_list str_date else str_date in
       let str_date := if isinstance_ndarray str_date then to_list str_date else str_date in
       match str_date with
       | PList l =>
           if len_list l =? 0 then
             ret (Some PNone)
           else if len_list l =? 1 then
             x <- lift (list_index l 0) ;;
             n <- lift (py_int x) ;;
             let date_ := str_of_int n in
             d <- str2date_kernel date_ ;;
             ret (Some (PDate d))
           else
             let nr := List.length l in
             let date_list := replicate nr (PList [PNone]) in
             r <- as_date_loop l (seq 0 nr) None date_list ;;
             ret (Some (PList r))
       | _ =>
           if type_is_date str_date then
             ret (Some str_date)
           else if isinstance_int str_date || isinstance_np_float64 str_date then
             n <- lift (py_int str_date) ;;
             let date_ := str_of_int n in
             d <- str2date_kernel date_ ;;
             ret (Some (PDate d))
           else
             match str_date with
             | PStr date_ =>
                 d <- str2date_kernel date_ ;;
                 ret (Some (PDate d))
             | _ =>
                 print "#####  Edge case encountered! (Input data type of str_date not recognized.) #####" ;;;
                 print (nl ++ "type(str_date) is: " ++ type_repr str_date)%string ;;;
                 try_except
                   (n <- lift (py_len str_date) ;;
                    print ("Length of str_date is: " ++ str_of_int n)%string)
                   TypeError
                   (print "str_date has no length.") ;;;
                 ret None
             end
       end) ;;
  load date_list.

(** ** The two functions under a locale

    [datetime.strptime(s, '%b')] and [... '%B'] compare [s] with the month
    names of the LC_TIME locale in force at the call: the lower-cased
    [calendar.month_abbr] and [calendar.month_name], which are process
    state that [locale.setlocale] changes.  A locale is given here by these
    two lists of twelve names, taken to be ASCII. *)
Record locale : Type := mklocale { a_month : list string; f_month : list string }.

(** The C locale, and every English one. *)
Definition english : locale := mklocale month_abbr month_name.

(** A Dutch locale. *)
Definition dutch : locale :=
  mklocale
    ["jan"; "feb"; "mrt"; "apr"; "mei"; "jun";
     "jul"; "aug"; "sep"; "okt"; "nov"; "dec"]
    ["januari"; "februari"; "maart"; "april"; "mei"; "juni";
     "juli"; "augustus"; "september"; "oktober"; "november"; "december"].

Definition str2date_kernel_in (loc : locale) (date_ : string) : M date :=
  let day := PNone in
  vars <-
    (if guard1 date_ then
       p <- lift (unpack2 (split "-" date_)) ;;
       let '(month, year) := p in
       month <- lift (strptime_month (a_month loc) month) ;;
       ret (Some (PStr year), Some (PInt month), day)
     else if guard2 date_ then
       p <- lift (unpack2 (split " " date_)) ;;
       let '(month, year) := p in
       month <- lift (strptime_month (f_month loc) month) ;;
       year <- lift (int_of_str year) ;;
       ret (Some (PInt year), Some (PInt month), day)
     else if guard3 date_ then
       year <- lift (int_of_str (slice_to 4 date_)) ;;
       month <- lift (int_of_str (slice_from 4 date_)) ;;
       ret (Some (PInt year), Some (PInt month), day)
     else if guard4 date_ then
       p <- lift (unpack2 (split "-" date_)) ;;
       let '(year, month) := p in
       year <- lift (int_of_str year) ;;
       month <- lift (int_of_str month) ;;
       ret (Some (PInt year), Some (PInt month), day)
     else if guard5 date_ then
       p <- lift (unpack3 (split "-" date_)) ;;
       let '(year, month, day) := p in
       year <- lift (int_of_str year) ;;
       month <- lift (int_of_str month) ;;
       day <- lift (int_of_str day) ;;
       ret (Some (PInt year), Some (PInt month), PInt day)
     else if guard6 date_ then
       p <- lift (unpack2 (split "-" date_)) ;;
       let '(month, year) := p in
       month <- lift (strptime_month (a_month loc) month) ;;
       year <- lift (int_of_str year) ;;
       let year := year + 2000 in
       ret (Some (PInt year), Some (PInt month), day)
     else
       print "*****  Edge case encountered! (Date format not recognized.)  *****" ;;;
       print (nl ++ "User supplied " ++ date_ ++ ", which is not recognized." ++ nl)%string ;;;
       ret (None, None, day)) ;;
  let '(year, month, day) := (vars : locals) in
  match day with
  | PNone =>
      y <- load year ;; m <- load month ;; lift (date_new y m (PInt 1))
  | _ =>
      y <- load year ;; m <- load month ;; lift (date_new y m day)
  end.

Fixpoint as_date_loop_in (loc : locale) (str_date : list pyobj) (js : list nat)
    (date_ : option string) (date_list : list pyobj) : M (list pyobj) :=
  match js with
  | [] => ret date_list
  | j :: js' =>
      x <- lift (list_index str_date j) ;;
      date_ <- (match x with
                | PStr s =>
                    if isdigit s
                    then n <- lift (py_int x) ;; ret (Some (str_of_int n))
                    else ret date_
                | _ => ret date_
                end) ;;
      date_ <- (match x with
                | PStr s => if negb (isdigit s) then ret (Some s) else ret date_
                | _ => ret date_
                end) ;;
      date_ <- (if isinstance_int x || isinstance_np_float64 x
                then n <- lift (py_int x) ;; ret (Some (str_of_int n))
                else ret date_) ;;
      arg <- load date_ ;;
      d <- str2date_kernel_in loc arg ;;
      as_date_loop_in loc str_date js' date_ (<[j := PDate d]> date_list)
  end.

Definition as_date_in (loc : locale) (str_date : pyobj) : M pyobj :=
  date_list <-
    (if isinstance_Timestamp str_date then
       ret (Some str_date)
     else
       let str_date := if isinstance_Series str_date then to_list str_date else str_date in
       let str_date := if isinstance_ndarray str_date then to_list str_date else str_date in
       match str_date with
       | PList l =>
           if len_list l =? 0 then
             ret (Some PNone)
           else if len_list l =? 1 then
             x <- lift (list_index l 0) ;;
             n <- lift (py_int x) ;;
             let date_ := str_of_int n in
             d <- str2date_kernel_in loc date_ ;;
             ret (Some (PDate d))
           else
             let nr := List.length l in
             let date_list := replicate nr (PList [PNone]) in
             r <- as_date_loop_in loc l (seq 0 nr) None date_list ;;
             ret (Some (PList r))
       | _ =>
           if type_is_date str_date then
             ret (Some str_date)
           else if isinstance_int str_date || isinstance_np_float64 str_date then
             n <- lift (py_int str_date) ;;
             let date_ := str_of_int n in
             d <- str2date_kernel_in loc date_ ;;
             ret (Some (PDate d))
           else
             match str_date with
             | PStr date_ =>
                 d <- str2date_kernel_in loc date_ ;;
                 ret (Some (PDate d))
             | _ =>
                 print "#####  Edge case encountered! (Input data type of str_date not recognized.) #####" ;;;
                 print (nl ++ "type(str_date) is: " ++ type_repr str_date)%string ;;;
                 try_except
                   (n <- lift (py_len str_date) ;;
                    print ("Length of str_date is: " ++ str_of_int n)%string)
                   TypeError
                   (print "str_date has no length.") ;;;
                 ret None
             end
       end) ;;
  load date_list.

(** ** Notions used to state the properties *)

(** The binary64 values 201406.0 and 201407.0. *)
Definition float_201406 : spec_float :=
  S754_finite false (201406 * 2 ^ 35)%positive (- 35).
Definition float_201407 : spec_float :=
  S754_finite false (201407 * 2 ^ 35)%positive (- 35).

(** What the last branch of [str2date_kernel] prints for [date_]. *)
Definition format_diagnostic (date_ : string) : stdout :=
  ["*****  Edge case encountered! (Date format not recognized.)  *****";
   (nl ++ "User supplied " ++ date_ ++ ", which is not recognized." ++ nl)%string].

(** What the last branch of [as_date] prints for [x]. *)
Definition type_diagnostic (x : pyobj) : stdout :=
  ["#####  Edge case encountered! (Input data type of str_date not recognized.) #####";
   (nl ++ "type(str_date) is: " ++ type_repr x)%string;
   match py_len x with
   | Ok n => ("Length of str_date is: " ++ str_of_int n)%string
   | Raise _ => "str_date has no length."
   end].

(** No guard of [str2date_kernel] holds. *)
Definition no_guard (date_ : string) : bool :=
  negb (guard1 date_) && negb (guard2 date_) && negb (guard3 date_)
  && negb (guard4 date_) && negb (guard5 date_) && negb (guard6 date_).

(** The branch of [str2date_kernel] that [date_] is given to calls
    [strptime]: the first, the second or the sixth. *)
Definition reads_month_names (date_ : string) : bool :=
  guard1 date_ || guard2 date_
  || (negb (guard3 date_) && negb (guard4 date_) && negb (guard5 date_)
      && guard6 date_).

(** The number written by a string of decimal digits. *)
Fixpoint decimal_from (acc : Z) (s : string) : Z :=
  match s with
  | EmptyString => acc
  | String c r => decimal_from (10 * acc + (ord c - 48)) r
  end.

Definition decimal (s : string) : Z := decimal_from 0 s.

(** A computation is silent when it prints nothing and its result does not
    depend on what stdout held before. *)
Definition silent {A} (m : M A) : Prop :=
  exists r : result A, forall w, m w = (w, r).

(** A computation is framed when what it appends to stdout and what it
    returns do not depend on what stdout held before, and it has printed
    nothing whenever it returns a value. *)
Definition framed {A} (m : M A) : Prop :=
  exists (out : stdout) (r : result A),
    (forall w, m w = (w ++ out, r)) /\ (out = [] \/ is_Ok r = false).

(** The classes the conditional of [as_date] has a branch for. *)
Definition dispatched (x : pyobj) : bool :=
  isinstance_Timestamp x || isinstance_Series x || isinstance_ndarray x
  || isinstance_list x || type_is_date x || isinstance_int x
  || isinstance_np_float64 x || isinstance_str x.

(** The input type of the specification: a scalar (integer, floating-point
    or text), a sequence of such scalars, or a date already in canonical
    form. *)
Definition is_scalar (x : pyobj) : bool :=
  match x with
  | PStr _ | PInt _ | PBool _ | PFloat _ | PNpFloat64 _ | PNpInt64 _ => true
  | _ => false
  end.

Definition is_DateInput (x : pyobj) : bool :=
  match x with
  | PList l | PSeries l | PNdarray l => forallb is_scalar l
  | PDate _ | PTimestamp _ => true
  | _ => is_scalar x
  end.

(** The six textual patterns of the specification, as exact shapes. *)
Definition slice (i j : nat) (s : string) : string := slice_to (j - i) (slice_from i s).

Definition ascii_digits (n : nat) (s : string) : bool :=
  Nat.eqb (String.length s) n && str_forall is_ascii_digit s.

Definition is_month (names : list string) (s : string) : bool :=
  match position (lower s) names 1 with Some _ => true | None => false end.

Definition shape_Mon_YYYY (s : string) : bool :=
  (len s =? 8) && is_month month_abbr (slice 0 3 s) && char_at_is s 3 "-"
  && ascii_digits 4 (slice 4 8 s).

Definition shape_Month_YYYY (s : string) : bool :=
  match split " " s with
  | [m; y] => is_month month_name m && ascii_digits 4 y
  | _ => false
  end.

Definition shape_YYYYMM (s : string) : bool := ascii_digits 6 s.

Definition shape_YYYY_MM (s : string) : bool :=
  (len s =? 7) && ascii_digits 4 (slice 0 4 s) && char_at_is s 4 "-"
  && ascii_digits 2 (slice 5 7 s).

Definition shape_YYYY_MM_DD (s : string) : bool :=
  (len s =? 10) && ascii_digits 4 (slice 0 4 s) && char_at_is s 4 "-"
  && ascii_digits 2 (slice 5 7 s) && char_at_is s 7 "-"
  && ascii_digits 2 (slice 8 10 s).

Definition shape_Mon_YY (s : string) : bool :=
  (len s =? 6) && is_month month_abbr (slice 0 3 s) && char_at_is s 3 "-"
  && ascii_digits 2 (slice 4 6 s).

Definition exact_shape (s : string) : bool :=
  shape_Mon_YYYY s || shape_Month_YYYY s || shape_YYYYMM s
  || shape_YYYY_MM s || shape_YYYY_MM_DD s || shape_Mon_YY s.

(** The conditional of [str2date_kernel] read as a table: each row is a
    guard and the extraction of its branch, rows are tried from the top and
    the first whose guard holds is taken; [unrecognized] is the branch taken
    when none holds. *)
Definition rule_Mon_YYYY (date_ : string) : M locals :=
  p <- lift (unpack2 (split "-" date_)) ;;
  month <- lift (strptime_month month_abbr (fst p)) ;;
  ret (Some (PStr (snd p)), Some (PInt month), PNone).

Definition rule_Month_YYYY (date_ : string) : M locals :=
  p <- lift (unpack2 (split " " date_)) ;;
  month <- lift (strptime_month month_name (fst p)) ;;
  year <- lift (int_of_str (snd p)) ;;
  ret (Some (PInt year), Some (PInt month), PNone).

Definition rule_YYYYMM (date_ : string) : M locals :=
  year <- lift (int_of_str (slice_to 4 date_)) ;;
  month <- lift (int_of_str (slice_from 4 date_)) ;;
  ret (Some (PInt year), Some (PInt month), PNone).

Definition rule_YYYY_MM (date_ : string) : M locals :=
  p <- lift (unpack2 (split "-" date_)) ;;
  year <- lift (int_of_str (fst p)) ;;
  month <- lift (int_of_str (snd p)) ;;
  ret (Some (PInt year), Some (PInt month), PNone).

Definition rule_YYYY_MM_DD (date_ : string) : M locals :=
  p <- lift (unpack3 (split "-" date_)) ;;
  year <- lift (int_of_str (fst (fst p))) ;;
  month <- lift (int_of_str (snd (fst p))) ;;
  day <- lift (int_of_str (snd p)) ;;
  ret (Some (PInt year), Some (PInt month), PInt day).

Definition rule_Mon_YY (date_ : string) : M locals :=
  p <- lift (unpack2 (split "-" date_)) ;;
  month <- lift (strptime_month month_abbr (fst p)) ;;
  year <- lift (int_of_str (snd p)) ;;
  ret (Some (PInt (year + 2000)), Some (PInt month), PNone).

Definition unrecognized (date_ : string) : M locals :=
  print "*****  Edge case encountered! (Date format not recognized.)  *****" ;;;
  print (nl ++ "User supplied " ++ date_ ++ ", which is not recognized." ++ nl)%string ;;;
  ret (None, None, PNone).

Definition pattern_table : list ((string -> bool) * (string -> M locals)) :=
  [(guard1, rule_Mon_YYYY); (guard2, rule_Month_YYYY); (guard3, rule_YYYYMM);
   (guard4, rule_YYYY_MM); (guard5, rule_YYYY_MM_DD); (guard6, rule_Mon_YY)].

Fixpoint first_match (table : list ((string -> bool) * (string -> M locals)))
    (date_ : string) : M locals :=
  match table with
  | [] => unrecognized date_
  | (guard, rule) :: rest =>
      if guard date_ then rule date_ else first_match rest date_
  end.

(** The closing [return] of [str2date_kernel]. *)
Definition make_date (vars : locals) : M date :=
  let '(year, month, day) := vars in
  match day with
  | PNone => y <- load year ;; m <- load month ;; lift (date_new y m (PInt 1))
  | _ => y <- load year ;; m <- load month ;; lift (date_new y m day)
  end.

(** The elements the loop of [as_date] has a case for and whose text it
    parses as [as_date] parses them alone: an [int], a numpy float64, a
    string that is not all digits, or a string of digits that [str(int(s))]
    gives back unchanged. *)
Definition plain_element (x : pyobj) : bool :=
  match x with
  | PStr s =>
      if isdigit s
      then match int_of_str s with
           | Ok n => String.eqb (str_of_int n) s
           | Raise _ => false
           end
      else true
  | PInt _ | PBool _ | PNpFloat64 _ => true
  | _ => false
  end.

(** The text handed to [str2date_kernel] for such an element. *)
Definition element_text (x : pyobj) : result string :=
  match x with
  | PStr s => Ok s
  | _ => rbind (py_int x) (fun n => Ok (str_of_int n))
  end.

(** Normalising the elements one after the other, from the first. *)
Fixpoint each (l : list pyobj) : M (list pyobj) :=
  match l with
  | [] => ret []
  | x :: r => d <- as_date x ;; ds <- each r ;; ret (d :: ds)
  end.

(** A date that [datetime.date] accepts. *)
Definition valid_date (d : date) : bool :=
  in_range 1 9999 (year d) && in_range 1 12 (month d)
  && in_range 1 (days_in_month (year d) (month d)) (day d).

(** ** The state-name helpers of [plot_utils.py]

    A [dict] is the list of its items in insertion order, each key once;
    keys are strings, values are any objects. *)

Definition pydict : Type := list (string * pyobj).

(** [k in d] and [d[k]] search for the key. *)
Fixpoint assoc {A} (d : list (string * A)) (k : string) : option A :=
  match d with
  | [] => None
  | (k', v) :: r => if String.eqb k' k then Some v else assoc r k
  end.

Definition has_key {A} (d : list (string * A)) (k : string) : bool :=
  match assoc d k with Some _ => true | None => false end.

Definition dict_keys {A} (d : list (string * A)) : list string := map fst d.

(** [d[k] = v], also [d.update({k: v})]: the value of an existing key is
    replaced where it stands, a new key goes to the end. *)
Fixpoint dict_set (d : pydict) (k : string) (v : pyobj) : pydict :=
  match d with
  | [] => [(k, v)]
  | (k', v') :: r =>
      if String.eqb k' k then (k', v) :: r else (k', v') :: dict_set r k v
  end.

(** The outcome of a function that indexes a dict: a value, or the
    [KeyError] of the key that was not found. *)
Inductive lookup (A : Type) : Type :=
| Returned (a : A)
| KeyError (key : string).

Arguments Returned {A} a.
Arguments KeyError {A} key.

Definition fips2state : list (string * string) :=
  [("01", "AL"); ("02", "AK"); ("04", "AZ"); ("05", "AR"); ("06", "CA");
   ("08", "CO"); ("09", "CT"); ("10", "DE"); ("11", "DC"); ("12", "FL");
   ("13", "GA"); ("15", "HI"); ("16", "ID"); ("17", "IL"); ("18", "IN");
   ("19", "IA"); ("20", "KS"); ("21", "KY"); ("22", "LA"); ("23", "ME");
   ("24", "MD"); ("25", "MA"); ("26", "MI"); ("27", "MN"); ("28", "MS");
   ("29", "MO"); ("30", "MT"); ("31", "NE"); ("32", "NV"); ("33", "NH");
   ("34", "NJ"); ("35", "NM"); ("36", "NY"); ("37", "NC"); ("38", "ND");
   ("39", "OH"); ("40", "OK"); ("41", "OR"); ("42", "PA"); ("44", "RI");
   ("45", "SC"); ("46", "SD"); ("47", "TN"); ("48", "TX"); ("49", "UT");
   ("50", "VT"); ("51", "VA"); ("53", "WA"); ("54", "WV"); ("55", "WI");
   ("56", "WY")].

Definition abbrev_to_full_table : list (string * string) :=
  [("AK", "Alaska"); ("AL", "Alabama"); ("AR", "Arkansas");
   ("AS", "American Samoa"); ("AZ", "Arizona"); ("CA", "California");
   ("CO", "Colorado"); ("CT", "Connecticut"); ("DC", "District of Columbia");
   ("DE", "Delaware"); ("FL", "Florida"); ("GA", "Georgia");
   ("GU", "Guam"); ("HI", "Hawaii"); ("IA", "Iowa");
   ("ID", "Idaho"); ("IL", "Illinois"); ("IN", "Indiana");
   ("KS", "Kansas"); ("KY", "Kentucky"); ("LA", "Louisiana");
   ("MA", "Massachusetts"); ("MD", "Maryland"); ("ME", "Maine");
   ("MI", "Michigan"); ("MN", "Minnesota"); ("MO", "Missouri");
   ("MP", "Northern Mariana Islands"); ("MS", "Mississippi"); ("MT", "Montana");
   ("NA", "National"); ("NC", "North Carolina"); ("ND", "North Dakota");
   ("NE", "Nebraska"); ("NH", "New Hampshire"); ("NJ", "New Jersey");
   ("NM", "New Mexico"); ("NV", "Nevada"); ("NY", "New York");
   ("OH", "Ohio"); ("OK", "Oklahoma"); ("OR", "Oregon");
   ("PA", "Pennsylvania"); ("PR", "Puerto Rico"); ("RI", "Rhode Island");
   ("SC", "South Carolina"); ("SD", "South Dakota"); ("TN", "Tennessee");
   ("TX", "Texas"); ("UT", "Utah"); ("VA", "Virginia");
   ("VI", "Virgin Islands"); ("VT", "Vermont"); ("WA", "Washington");
   ("WI", "Wisconsin"); ("WV", "West Virginia"); ("WY", "Wyoming")].

Definition full_to_abbrev_table : list (string * string) :=
  [("Alabama", "AL"); ("Alaska", "AK"); ("Arizona", "AZ");
   ("Arkansas", "AR"); ("California", "CA"); ("Colorado", "CO");
   ("Connecticut", "CT"); ("Delaware", "DE"); ("Florida", "FL");
   ("Georgia", "GA"); ("Hawaii", "HI"); ("Idaho", "ID");
   ("Illinois", "IL"); ("Indiana", "IN"); ("Iowa", "IA");
   ("Kansas", "KS"); ("Kentucky", "KY"); ("Louisiana", "LA");
   ("Maine", "ME"); ("Maryland", "MD"); ("Massachusetts", "MA");
   ("Michigan", "MI"); ("Minnesota", "MN"); ("Mississippi", "MS");
   ("Missouri", "MO"); ("Montana", "MT"); ("Nebraska", "NE");
   ("Nevada", "NV"); ("New Hampshire", "NH"); ("New Jersey", "NJ");
   ("New Mexico", "NM"); ("New York", "NY"); ("North Carolina", "NC");
   ("North Dakota", "ND"); ("Ohio", "OH"); ("Oklahoma", "OK");
   ("Oregon", "OR"); ("Pennsylvania", "PA"); ("Rhode Island", "RI");
   ("South Carolina", "SC"); ("South Dakota", "SD"); ("Tennessee", "TN");
   ("Texas", "TX"); ("Utah", "UT"); ("Vermont", "VT");
   ("Virginia", "VA"); ("Washington", "WA"); ("West Virginia", "WV");
   ("Wisconsin", "WI"); ("Wyoming", "WY")].

Definition full_state_list : list string :=
  ["Alabama"; "Alaska"; "Arizona"; "Arkansas";
   "California"; "Colorado"; "Connecticut"; "Delaware";
   "Florida"; "Georgia"; "Hawaii"; "Idaho";
   "Illinois"; "Indiana"; "Iowa"; "Kansas";
   "Kentucky"; "Louisiana"; "Maine"; "Maryland";
   "Massachusetts"; "Michigan"; "Minnesota"; "Mississippi";
   "Missouri"; "Montana"; "Nebraska"; "Nevada";
   "New Hampshire"; "New Jersey"; "New Mexico"; "New York";
   "North Carolina"; "North Dakota"; "Ohio"; "Oklahoma";
   "Oregon"; "Pennsylvania"; "Rhode Island"; "South Carolina";
   "South Dakota"; "Tennessee"; "Texas"; "Utah";
   "Vermont"; "Virginia"; "Washington"; "West Virginia";
   "Wisconsin"; "Wyoming"].

(** The loop shared by [translate_state_abbrev] and
    [convert_FIPS_to_state_name]: every key of [dict1] is looked up in
    [translation], and its value stored in [dict2] under the new name. *)
Fixpoint translate_loop (translation : list (string * string)) (dict1 : pydict)
    (keys : list string) (dict2 : pydict) : lookup pydict :=
  match keys with
  | [] => Returned dict2
  | state_name :: rest =>
      match assoc translation state_name with
      | None => KeyError state_name
      | Some new_state_name =>
          match assoc dict1 state_name with
          | None => KeyError state_name
          | Some v =>
              translate_loop translation dict1 rest
                (dict_set dict2 new_state_name v)
          end
      end
  end.

(** [abbrev_to_full is True] holds for the object [True] alone. *)
Definition is_True (x : pyobj) : bool :=
  match x with PBool true => true | _ => false end.

Definition translate_state_abbrev (dict1 : pydict) (abbrev_to_full : pyobj)
    : lookup pydict :=
  let translation :=
    if is_True abbrev_to_full then abbrev_to_full_table
    else full_to_abbrev_table in
  translate_loop translation dict1 (dict_keys dict1) [].

Definition convert_FIPS_to_state_name (dict1 : pydict) : lookup pydict :=
  match translate_loop fips2state dict1 (dict_keys dict1) [] with
  | Returned dict2 => translate_state_abbrev dict2 (PBool true)
  | KeyError k => KeyError k
  end.

(** [np.nan] *)
Definition nan : pyobj := PFloat S754_nan.

(** [l.sort()] sorts the list it is called on and evaluates to [None];
    strings can always be compared, so it does not raise. *)
Definition sort_value (l : list string) : pyobj := PNone.

Fixpoint same_strings (items : list pyobj) (l : list string) : bool :=
  match items, l with
  | [], [] => true
  | PStr s :: items', s' :: l' => String.eqb s s' && same_strings items' l'
  | _, _ => false
  end.

(** [x != l] for a list [l] of strings. *)
Definition differs_from_list (x : pyobj) (l : list string) : bool :=
  match x with
  | PList items => negb (same_strings items l)
  | _ => true
  end.

Fixpoint check_loop (dict1 : pydict) (states : list string) (dict2 : pydict)
    : M pydict :=
  match states with
  | [] => ret dict2
  | state :: rest =>
      match assoc dict1 state with
      | Some v => check_loop dict1 rest (dict_set dict2 state v)
      | None =>
          print (state ++ " data missing (replaced with NaN).")%string ;;;
          check_loop dict1 rest (dict_set dict2 state nan)
      end
  end.

Definition check_all_states (dict1 : pydict) : M pydict :=
  if differs_from_list (sort_value (dict_keys dict1)) full_state_list
  then check_loop dict1 full_state_list []
  else ret dict1.

(** Notions used to state the properties of the helpers. *)
Fixpoint memb (x : string) (l : list string) : bool :=
  match l with
  | [] => false
  | y :: r => String.eqb y x || memb x r
  end.

Fixpoint nodupb (l : list string) : bool :=
  match l with
  | [] => true
  | x :: r => negb (memb x r) && nodupb r
  end.

(** The name a table gives a key (the key itself when it has none). *)
Definition renamed (table : list (string * string)) (k : string) : string :=
  match assoc table k with Some n => n | None => k end.

Definition rename_items (table : list (string * string)) (d : pydict) : pydict :=
  map (fun kv => (renamed table (fst kv), snd kv)) d.

(** The first key of [d] that [table] does not have. *)
Definition first_missing (table : list (string * string)) (d : pydict)
    : option string :=
  find (fun k => negb (has_key table k)) (dict_keys d).

Definition table_for (abbrev_to_full : pyobj) : list (string * string) :=
  if is_True abbrev_to_full then abbrev_to_full_table else full_to_abbrev_table.

(** A table is one-to-one when no two keys are given the same name. *)
Definition one_to_one (table : list (string * string)) : Prop :=
  forall k1 k2 n : string,
    assoc table k1 = Some n -> assoc table k2 = Some n -> k1 = k2.

(** The value [check_all_states] stores for a state, and the line it prints
    for a state that is missing. *)
Definition value_or_nan (d : pydict) (state : string) : pyobj :=
  match assoc d state with Some v => v | None => nan end.

Definition missing_line (state : string) : string :=
  (state ++ " data missing (replaced with NaN).")%string.

(** A lower-case letter of the alphabet, as the month names are written. *)
Definition is_lower_letter (c : ascii) : bool := in_range 97 122 (ord c).

(** ** [calc_month_interval] *)

(** [date.toordinal()], as CPython computes it. *)
Definition days_before_year (y : Z) : Z :=
  let y := y - 1 in y * 365 + y / 4 - y / 100 + y / 400.

Definition days_before_month (y m : Z) : Z :=
  nth (Z.to_nat m) [0; 0; 31; 59; 90; 120; 151; 181; 212; 243; 273; 304; 334] 0
  + (if (2 <? m) && is_leap y then 1 else 0).

Definition toordinal (d : date) : Z :=
  days_before_year (year d) + days_before_month (year d) (month d) + day d.

(** [(a - b).days] for two dates. *)
Definition days_between (a b : date) : Z := toordinal a - toordinal b.

Definition calc_month_interval (date_array : list date) : result Z :=
  match last date_array with
  | None => Raise IndexError
  | Some date9 =>
      match date_array with
      | [] => Raise IndexError
      | date0 :: _ =>
          let delta_days := days_between date9 date0 in
          let delta_months := delta_days / 30 in
          Ok delta_months
      end
  end.

(** ** Properties *)

(** C1. Of the six representative literals, five normalise to the expected
    date; ["Aug-2014"] does not: the first branch leaves [year] a string,
    and [datetime.date] refuses it with TypeError. *)
Theorem representative_literals (w : stdout) :
  as_date (PStr "Aug-2014") w = (w, Raise TypeError)
  /\ as_date (PStr "August 2014") w = (w, Ok (PDate (mkdate 2014 8 1)))
  /\ as_date (PStr "201407") w = (w, Ok (PDate (mkdate 2014 7 1)))
  /\ as_date (PStr "2016-07") w = (w, Ok (PDate (mkdate 2016 7 1)))
  /\ as_date (PStr "2015-02-21") w = (w, Ok (PDate (mkdate 2015 2 21)))
  /\ as_date (PStr "May-12") w = (w, Ok (PDate (mkdate 2012 5 1))).
Proof.
  repeat split; reflexivity.
Qed.

(** *** The two functions on the paths that print *)

Lemma kernel_no_guard (date_ : string) (w : stdout) :
  no_guard date_ = true ->
  str2date_kernel date_ w = (w ++ format_diagnostic date_, Raise UnboundLocalError).
Proof.
  unfold no_guard.
  rewrite !andb_true_iff, !negb_true_iff.
  intros [[[[[H1 H2] H3] H4] H5] H6].
  unfold str2date_kernel, bind.
  rewrite H1, H2, H3, H4, H5, H6.
  cbn. rewrite <- app_assoc. reflexivity.
Qed.

Lemma as_date_str (date_ : string) (w : stdout) :
  as_date (PStr date_) w =
  match str2date_kernel date_ w with
  | (w', Ok d) => (w', Ok (PDate d))
  | (w', Raise e) => (w', Raise e)
  end.
Proof.
  unfold as_date, bind. cbn.
  destruct (str2date_kernel date_ w) as [w' [d | e]]; reflexivity.
Qed.

(** C2 (as stated, refuted). ["not-a-date"] has none of the six shapes, yet
    it is not reported as unrecognised: it has length 10 and is not all
    digits, so the fifth branch splits it on hyphens and [int("not")] raises
    ValueError, with nothing printed. *)
Lemma not_a_date_raises :
  exact_shape "not-a-date" = false
  /\ as_date (PStr "not-a-date") [] = ([], Raise ValueError).
Proof.
  split; reflexivity.
Qed.

(** C2 (amended). A text on which none of the six guards holds is reported
    by a printed diagnostic that names it, and no date, default or other, is
    returned for it. *)
Theorem unmatched_text_diagnosed (date_ : string) (w : stdout) :
  no_guard date_ = true ->
  fst (as_date (PStr date_) w) = w ++ format_diagnostic date_
  /\ is_Ok (snd (as_date (PStr date_) w)) = false.
Proof.
  intros H. rewrite as_date_str, (kernel_no_guard _ _ H). split; reflexivity.
Qed.

Lemma unmatched_text_diagnosed_witness :
  no_guard "hello" = true
  /\ fst (as_date (PStr "hello") []) = [] ++ format_diagnostic "hello"
  /\ is_Ok (snd (as_date (PStr "hello") [])) = false.
Proof.
  split; [reflexivity | apply (unmatched_text_diagnosed "hello" []); reflexivity].
Defined.

(** C3. In a sequence of more than one element, an element that is neither
    a string, an [int] nor a numpy float64 assigns nothing to [date_]: the
    text of the previous element is parsed again.  The built-in float
    201406.0 after the integer 201405 yields May 2014 twice, while the same
    value as a numpy float64 yields June 2014; a built-in float in the first
    position finds [date_] unassigned.  The two strings ["201405"] and
    ["201406"] are normalised in order. *)
Theorem sequence_keeps_stale_text (w : stdout) :
  as_date (PList [PInt 201405; PFloat float_201406]) w
  = (w, Ok (PList [PDate (mkdate 2014 5 1); PDate (mkdate 2014 5 1)]))
  /\ as_date (PList [PStr "201405"; PStr "201406"]) w
     = (w, Ok (PList [PDate (mkdate 2014 5 1); PDate (mkdate 2014 6 1)]))
  /\ as_date (PList [PInt 201405; PNpFloat64 float_201406]) w
     = (w, Ok (PList [PDate (mkdate 2014 5 1); PDate (mkdate 2014 6 1)]))
  /\ as_date (PList [PFloat float_201406; PInt 201405]) w
     = (w, Raise UnboundLocalError).
Proof.
  repeat split; reflexivity.
Qed.

(** C4. The integer 201407 and the numpy float64 201407.0 normalise to
    1 July 2014; the built-in float 201407.0 is an instance of neither
    [int] nor [np.float64], and is reported as an unrecognised type. *)
Theorem numeric_scalars (w : stdout) :
  as_date (PInt 201407) w = (w, Ok (PDate (mkdate 2014 7 1)))
  /\ as_date (PNpFloat64 float_201407) w = (w, Ok (PDate (mkdate 2014 7 1)))
  /\ as_date (PFloat float_201407) w
     = (w ++ type_diagnostic (PFloat float_201407), Raise UnboundLocalError).
Proof.
  repeat split; try reflexivity.
  cbn. rewrite <- !app_assoc. reflexivity.
Qed.

(** C5. A sequence of one element is unwrapped through [str(int(...))]:
    for an integer or a numpy float64 the result is that of the bare
    number, and
    [["201405"]] normalises as ["201405"] does; a string that is not an
    integer literal, such as ["2014-05-25"], normalises alone but raises
    ValueError inside a sequence of length one. *)
Theorem singleton_sequence (n : Z) (f : spec_float) (w : stdout) :
  as_date (PList [PInt n]) w = as_date (PInt n) w
  /\ as_date (PList [PNpFloat64 f]) w = as_date (PNpFloat64 f) w
  /\ as_date (PList [PStr "201405"]) w = as_date (PStr "201405") w
  /\ as_date (PStr "2014-05-25") w = (w, Ok (PDate (mkdate 2014 5 25)))
  /\ as_date (PList [PStr "2014-05-25"]) w = (w, Raise ValueError).
Proof.
  repeat split; reflexivity.
Qed.

(** C7. A [datetime.date], and a pandas Timestamp, is returned as it is,
    and nothing is printed. *)
Theorem canonical_date_unchanged (w : stdout) :
  (forall d : date, as_date (PDate d) w = (w, Ok (PDate d)))
  /\ (forall ns : Z, as_date (PTimestamp ns) w = (w, Ok (PTimestamp ns))).
Proof.
  split; intros; reflexivity.
Qed.

(** *** Strings of decimal digits *)

Lemma int_digits_decimal (s : string) :
  forall (acc : Z) (b : bool),
    str_forall is_ascii_digit s = true ->
    b = true \/ nonempty s = true ->
    int_digits s acc b = Some (decimal_from acc s).
Proof.
  induction s as [| c r IH]; intros acc b Hd Hb; cbn in *.
  - destruct Hb as [-> | Hb]; [reflexivity | discriminate].
  - apply andb_true_iff in Hd as [Hc Hr].
    rewrite Hc. apply IH; auto.
Qed.

Lemma digit_not_space (c : ascii) :
  is_ascii_digit c = true -> isspace_int c = false.
Proof.
  unfold is_ascii_digit, isspace_int, in_range. intros H.
  apply andb_true_iff in H as [H1 H2].
  apply Z.leb_le in H1, H2.
  repeat (apply orb_false_iff; split);
    try apply andb_false_iff; try (right; apply Z.leb_gt; lia);
    apply Z.eqb_neq; lia.
Qed.

Lemma digit_differs (c d : ascii) :
  is_ascii_digit c = true -> is_ascii_digit d = false -> Ascii.eqb c d = false.
Proof.
  intros Hc Hd. destruct (Ascii.eqb_spec c d) as [-> | _]; congruence.
Qed.

Lemma int_of_str_decimal (s : string) :
  nonempty s = true ->
  str_forall is_ascii_digit s = true ->
  int_of_str s = Ok (decimal s).
Proof.
  destruct s as [| c r]; [discriminate |]. intros _ Hd.
  assert (Hc : is_ascii_digit c = true)
    by (cbn in Hd; apply andb_true_iff in Hd; tauto).
  unfold int_of_str, decimal.
  cbn [lstrip]. rewrite (digit_not_space c Hc).
  assert (Hsign : (let '(neg, body) :=
                     match String c r with
                     | String "-" r0 => (true, r0)
                     | String "+" r0 => (false, r0)
                     | _ => (false, String c r)
                     end in
                   match int_digits body 0 false with
                   | Some v => Ok (if neg then - v else v)
                   | None => Raise ValueError
                   end)
                  = match int_digits (String c r) 0 false with
                    | Some v => Ok v
                    | None => Raise ValueError
                    end).
  { pose proof (digit_differs c "-" Hc eq_refl) as Hm.
    pose proof (digit_differs c "+" Hc eq_refl) as Hp.
    destruct c as [[] [] [] [] [] [] [] []]; try discriminate; reflexivity. }
  rewrite Hsign.
  rewrite (int_digits_decimal (String c r) 0 false Hd); [reflexivity | right; reflexivity].
Qed.

Lemma digits_exclude (c : ascii) (s : string) :
  is_ascii_digit c = false ->
  str_forall is_ascii_digit s = true ->
  str_contains c s = false.
Proof.
  intros Hc. induction s as [| c' r IH]; cbn; [reflexivity |].
  intros H. apply andb_true_iff in H as [H1 H2].
  rewrite (digit_differs c' c H1 Hc), (IH H2). reflexivity.
Qed.

Lemma digits_isdigit (s : string) :
  str_forall is_ascii_digit s = true -> str_forall isdigit_char s = true.
Proof.
  induction s as [| c r IH]; cbn; [reflexivity |].
  intros H. apply andb_true_iff in H as [H1 H2].
  rewrite (IH H2), andb_true_r.
  unfold isdigit_char. unfold is_ascii_digit in H1. rewrite H1. reflexivity.
Qed.

Lemma digit_value (c : ascii) :
  is_ascii_digit c = true -> 0 <= ord c - 48 <= 9.
Proof.
  unfold is_ascii_digit, in_range. intros H.
  apply andb_true_iff in H as [H1 H2]. apply Z.leb_le in H1, H2. lia.
Qed.

Lemma first_day_valid (y m : Z) : in_range 1 (days_in_month y m) 1 = true.
Proof.
  unfold days_in_month.
  repeat match goal with
         | |- context [if ?b then _ else _] => destruct b
         end; reflexivity.
Qed.

(** C10. On a string of six decimal digits the third branch reads the year
    from the first four and the month from the last two, and hands them to
    [datetime.date] unchecked: the result is whatever the constructor says,
    which is ValueError when the month is outside 1..12 (or the year is 0),
    with no date and no diagnostic.  The day of the fifth branch is not
    checked either: 30 February raises ValueError in the constructor. *)
Theorem six_digits_unchecked_month (date_ : string) (w : stdout) :
  String.length date_ = 6%nat ->
  str_forall is_ascii_digit date_ = true ->
  let y := decimal (slice_to 4 date_) in
  let m := decimal (slice_from 4 date_) in
  str2date_kernel date_ w = (w, date_new (PInt y) (PInt m) (PInt 1))
  /\ date_new (PInt y) (PInt m) (PInt 1)
     = (if in_range 1 9999 y && in_range 1 12 m
        then Ok (mkdate y m 1) else Raise ValueError)
  /\ str2date_kernel "2015-02-30" w = (w, Raise ValueError).
Proof.
  intros Hlen Hd y m. subst y m. split; [| split; [| reflexivity]].
  - unfold str2date_kernel, bind, guard1, guard2, guard3, len.
    rewrite Hlen.
    rewrite (digits_exclude "-" date_ eq_refl Hd).
    rewrite (digits_exclude " " date_ eq_refl Hd).
    assert (Hi : isdigit date_ = true).
    { unfold isdigit. rewrite (digits_isdigit _ Hd).
      destruct date_; [discriminate | reflexivity]. }
    rewrite Hi. cbn [andb Z.eqb Z.of_nat Pos.of_succ_nat Pos.succ Pos.eqb].
    destruct date_ as [| c1 [| c2 [| c3 [| c4 [| c5 [| c6 [| ? ?]]]]]]];
      try discriminate.
    cbn in Hd. repeat (apply andb_true_iff in Hd as [? Hd]).
    cbn [slice_to slice_from lift].
    rewrite !int_of_str_decimal; cbn; rewrite ?H, ?H0, ?H1, ?H2, ?H3, ?H4; auto.
  - destruct date_ as [| c1 [| c2 [| c3 [| c4 [| c5 [| c6 [| ? ?]]]]]]];
      try discriminate.
    cbn in Hd. repeat (apply andb_true_iff in Hd as [? Hd]).
    cbn [slice_to slice_from].
    unfold decimal. cbn [decimal_from].
    repeat match goal with
           | H : is_ascii_digit _ = true |- _ => apply digit_value in H
           end.
    set (y := 10 * (10 * (10 * (10 * 0 + (ord c1 - 48)) + (ord c2 - 48))
                    + (ord c3 - 48)) + (ord c4 - 48)).
    set (m := 10 * (10 * 0 + (ord c5 - 48)) + (ord c6 - 48)).
    assert (Hy : in_range (-2147483648) 2147483647 y = true)
      by (unfold in_range; apply andb_true_iff; split; apply Z.leb_le; lia).
    assert (Hm : in_range (-2147483648) 2147483647 m = true)
      by (unfold in_range; apply andb_true_iff; split; apply Z.leb_le; lia).
    unfold date_new, c_int, rbind. rewrite Hy, Hm.
    change (in_range (-2147483648) 2147483647 1) with true. cbv iota.
    rewrite first_day_valid.
    destruct (in_range 1 9999 y); [| reflexivity].
    destruct (in_range 1 12 m); reflexivity.
Qed.

Lemma six_digits_unchecked_month_witness :
  String.length "201499" = 6%nat
  /\ str_forall is_ascii_digit "201499" = true
  /\ str2date_kernel "201499" [] = ([], date_new (PInt 2014) (PInt 99) (PInt 1))
  /\ date_new (PInt 2014) (PInt 99) (PInt 1) = Raise ValueError
  /\ str2date_kernel "2015-02-30" [] = ([], Raise ValueError).
Proof.
  split; [reflexivity |]. split; [reflexivity |].
  exact (six_digits_unchecked_month "201499" [] eq_refl eq_refl).
Defined.

(** *** Silent and framed computations *)

Lemma silent_lift {A} (r : result A) : silent (lift r).
Proof. exists r. reflexivity. Qed.

Lemma silent_ret {A} (a : A) : silent (ret a).
Proof. apply (silent_lift (Ok a)). Qed.

Lemma silent_raise {A} (e : exn) : silent (@raise A e).
Proof. apply (silent_lift (Raise e)). Qed.

Lemma silent_load {A} (v : option A) : silent (load v).
Proof. destruct v; [apply silent_ret | apply silent_raise]. Qed.

Lemma silent_bind {A B} (m : M A) (k : A -> M B) :
  silent m -> (forall a, silent (k a)) -> silent (bind m k).
Proof.
  intros [r Hm] Hk. destruct r as [a | e].
  - destruct (Hk a) as [r' Hk']. exists r'.
    intros w. unfold bind. rewrite Hm. apply Hk'.
  - exists (Raise e). intros w. unfold bind. rewrite Hm. reflexivity.
Qed.

Lemma silent_framed {A} (m : M A) : silent m -> framed m.
Proof.
  intros [r H]. exists [], r. split; [| left; reflexivity].
  intros w. rewrite app_nil_r. apply H.
Qed.

Lemma framed_bind {A B} (m : M A) (k : A -> M B) :
  framed m -> (forall a, framed (k a)) -> framed (bind m k).
Proof.
  intros (out & r & Hm & Hout) Hk.
  destruct r as [a | e].
  - destruct Hout as [-> | Hout]; [| discriminate].
    destruct (Hk a) as (out' & r' & Hk' & Hout').
    exists out', r'. split; [| exact Hout'].
    intros w. unfold bind. rewrite Hm, app_nil_r. apply Hk'.
  - exists out, (Raise e). split; [| right; reflexivity].
    intros w. unfold bind. rewrite Hm. reflexivity.
Qed.

Lemma framed_printed_raise {A} (m : M A) (out : stdout) (e : exn) :
  (forall w, m w = (w ++ out, Raise e)) -> framed m.
Proof.
  intros H. exists out, (Raise e). split; [exact H | right; reflexivity].
Qed.

Ltac silent_leaf :=
  first [ apply silent_ret | apply silent_raise | apply silent_lift
        | apply silent_load ].

Ltac silent_step :=
  first [ silent_leaf | apply silent_bind; [| intros ?] ].

Ltac framed_step :=
  first [ apply silent_framed; silent_leaf | apply framed_bind; [| intros ?] ].

Lemma silent_make_date (vars : locals) : silent (make_date vars).
Proof.
  destruct vars as [[year month] day]. unfold make_date.
  destruct day; repeat silent_step.
Qed.

Ltac run_results :=
  cbv beta iota delta [bind lift ret fst snd];
  repeat match goal with
         | p : (_ * _)%type |- _ =>
             destruct p; cbv beta iota delta [bind lift ret fst snd]
         | |- context [match ?r with Ok _ => _ | Raise _ => _ end] =>
             destruct r; cbv beta iota delta [bind lift ret fst snd]
         end.

Lemma kernel_first_match (date_ : string) (w : stdout) :
  str2date_kernel date_ w = bind (first_match pattern_table date_) make_date w.
Proof.
  unfold str2date_kernel, pattern_table, first_match, make_date.
  unfold rule_Mon_YYYY, rule_Month_YYYY, rule_YYYYMM, rule_YYYY_MM,
    rule_YYYY_MM_DD, rule_Mon_YY, unrecognized.
  destruct (guard1 date_); [run_results; reflexivity |].
  destruct (guard2 date_); [run_results; reflexivity |].
  destruct (guard3 date_); [run_results; reflexivity |].
  destruct (guard4 date_); [run_results; reflexivity |].
  destruct (guard5 date_); [run_results; reflexivity |].
  destruct (guard6 date_); [run_results; reflexivity |].
  reflexivity.
Qed.

(** The first branch never returns: [year] stays the text after the
    hyphen, which [datetime.date] refuses. *)
Lemma first_branch_never_returns (date_ : string) (w : stdout) :
  guard1 date_ = true -> is_Ok (snd (str2date_kernel date_ w)) = false.
Proof.
  intros H. rewrite kernel_first_match.
  unfold pattern_table, first_match. rewrite H.
  unfold rule_Mon_YYYY, make_date. run_results; reflexivity.
Qed.

Lemma first_match_silent (date_ : string) :
  no_guard date_ = false -> silent (first_match pattern_table date_).
Proof.
  unfold no_guard, pattern_table, first_match.
  destruct (guard1 date_); [intros _; unfold rule_Mon_YYYY; repeat silent_step |].
  destruct (guard2 date_); [intros _; unfold rule_Month_YYYY; repeat silent_step |].
  destruct (guard3 date_); [intros _; unfold rule_YYYYMM; repeat silent_step |].
  destruct (guard4 date_); [intros _; unfold rule_YYYY_MM; repeat silent_step |].
  destruct (guard5 date_); [intros _; unfold rule_YYYY_MM_DD; repeat silent_step |].
  destruct (guard6 date_); [intros _; unfold rule_Mon_YY; repeat silent_step |].
  discriminate.
Qed.

Lemma kernel_silent (date_ : string) :
  no_guard date_ = false -> silent (str2date_kernel date_).
Proof.
  intros H.
  destruct (silent_bind _ make_date (first_match_silent date_ H) silent_make_date)
    as [r Hr].
  exists r. intros w. rewrite kernel_first_match. apply Hr.
Qed.

Lemma kernel_framed (date_ : string) : framed (str2date_kernel date_).
Proof.
  destruct (no_guard date_) eqn:H.
  - apply (framed_printed_raise _ (format_diagnostic date_) UnboundLocalError).
    intros w. apply kernel_no_guard, H.
  - apply silent_framed, kernel_silent, H.
Qed.

Lemma as_date_undispatched (x : pyobj) (w : stdout) :
  dispatched x = false ->
  as_date x w = (w ++ type_diagnostic x, Raise UnboundLocalError).
Proof.
  destruct x as [| | | | | | | | | | | | r [n |]]; try discriminate; intros _;
    cbn; rewrite <- !app_assoc; reflexivity.
Qed.

Lemma as_date_loop_framed (str_date : list pyobj) (js : list nat) :
  forall (date_ : option string) (date_list : list pyobj),
    framed (as_date_loop str_date js date_ date_list).
Proof.
  induction js as [| j js IH]; intros date_ date_list; cbn [as_date_loop].
  - apply silent_framed, silent_ret.
  - framed_step; [framed_step |].
    framed_step.
    { destruct a; repeat framed_step. destruct (isdigit s); repeat framed_step. }
    framed_step.
    { destruct a; repeat framed_step. destruct (negb (isdigit s)); repeat framed_step. }
    framed_step.
    { destruct (isinstance_int a || isinstance_np_float64 a); repeat framed_step. }
    framed_step; [framed_step |].
    framed_step; [apply kernel_framed |]. apply IH.
Qed.

Lemma as_date_framed (x : pyobj) : framed (as_date x).
Proof.
  destruct (dispatched x) eqn:Hx.
  - unfold as_date. framed_step; [| framed_step].
    destruct x as [s | n | b | f | f | n | d | ns | | l | l | l | r o];
      try discriminate; cbn [isinstance_Timestamp isinstance_Series
        isinstance_ndarray to_list type_is_date isinstance_int
        isinstance_np_float64 orb];
      repeat first [ apply kernel_framed | apply as_date_loop_framed
                   | framed_step
                   | match goal with
                     | |- framed (if ?b then _ else _) => destruct b
                     end ].
  - apply (framed_printed_raise _ (type_diagnostic x) UnboundLocalError).
    intros w. apply as_date_undispatched, Hx.
Qed.

(** C6 (as stated, refuted). ["02015-2-21"] has length 10 and none of the
    six exact shapes, its first group having five digits; the guard of the
    fifth branch only asks for length 10 and a character that is not a
    digit, so the text is split on hyphens and read as 21 February 2015. *)
Lemma loose_guard_accepts_outside_shape :
  len "02015-2-21" = 10
  /\ exact_shape "02015-2-21" = false
  /\ str2date_kernel "02015-2-21" [] = ([], Ok (mkdate 2015 2 21)).
Proof.
  repeat split; reflexivity.
Qed.

(** C6 (amended). The conditional is the table [pattern_table] read from the
    top, the first row whose guard holds giving the extraction; a text is
    treated as unrecognised, the diagnostic printed and no date returned,
    when no guard holds, and nothing is printed when one does. *)
Theorem first_guard_wins (date_ : string) (w : stdout) :
  str2date_kernel date_ w = bind (first_match pattern_table date_) make_date w
  /\ (if no_guard date_
      then fst (str2date_kernel date_ w) = w ++ format_diagnostic date_
           /\ is_Ok (snd (str2date_kernel date_ w)) = false
      else fst (str2date_kernel date_ w) = w).
Proof.
  split; [apply kernel_first_match |].
  destruct (no_guard date_) eqn:H.
  - rewrite (kernel_no_guard _ _ H). split; reflexivity.
  - destruct (kernel_silent _ H) as [r Hr]. rewrite Hr. reflexivity.
Qed.

(** C8 (as stated, refuted). A dict is outside DateInput, and it is not
    refused by an error that tells its type: [as_date] has no [raise], its
    last branch reports the type in print, and the call then ends in the
    UnboundLocalError of the closing [return].  Inside a list of two the
    dict is not reported at all: it assigns nothing to [date_], and the text
    of the integer before it is parsed twice. *)
Lemma uncovered_input_not_refused :
  let d := POther "<class 'dict'>" (Some 0%nat) in
  is_DateInput d = false
  /\ as_date d [] = (type_diagnostic d, Raise UnboundLocalError)
  /\ is_DateInput (PList [PInt 201405; d]) = false
  /\ as_date (PList [PInt 201405; d]) []
     = ([], Ok (PList [PDate (mkdate 2014 5 1); PDate (mkdate 2014 5 1)])).
Proof.
  repeat split; reflexivity.
Qed.

(** C8 (amended). An argument that is outside DateInput and is not a
    sequence (a list, a Series or an ndarray) is not coerced: a diagnostic
    with its type and its length is printed, and the call returns no
    value. *)
Theorem uncovered_type_diagnosed (x : pyobj) (w : stdout) :
  is_DateInput x = false ->
  isinstance_list (to_list x) = false ->
  fst (as_date x w) = w ++ type_diagnostic x
  /\ is_Ok (snd (as_date x w)) = false.
Proof.
  intros Hx Hseq.
  assert (H : dispatched x = false)
    by (destruct x; try discriminate Hx; try discriminate Hseq; reflexivity).
  rewrite (as_date_undispatched _ _ H). split; reflexivity.
Qed.

Lemma uncovered_type_diagnosed_witness :
  is_DateInput (POther "<class 'dict'>" (Some 0%nat)) = false
  /\ isinstance_list (to_list (POther "<class 'dict'>" (Some 0%nat))) = false
  /\ fst (as_date (POther "<class 'dict'>" (Some 0%nat)) [])
     = [] ++ type_diagnostic (POther "<class 'dict'>" (Some 0%nat))
  /\ is_Ok (snd (as_date (POther "<class 'dict'>" (Some 0%nat)) [])) = false.
Proof.
  split; [reflexivity |]. split; [reflexivity |].
  apply (uncovered_type_diagnosed (POther "<class 'dict'>" (Some 0%nat)) []);
    reflexivity.
Defined.

(** *** The two functions under a locale *)

Lemma bind_ext {A B} (m : M A) (k1 k2 : A -> M B) :
  (forall a w, k1 a w = k2 a w) -> forall w, bind m k1 w = bind m k2 w.
Proof.
  intros H w. unfold bind. destruct (m w) as [w' [a | e]]; [apply H | reflexivity].
Qed.

Lemma bind_ext_l {A B} (m1 m2 : M A) (k : A -> M B) :
  (forall w, m1 w = m2 w) -> forall w, bind m1 k w = bind m2 k w.
Proof.
  intros H w. unfold bind. rewrite H. reflexivity.
Qed.

Lemma bind_ext_both {A B} (m1 m2 : M A) (k1 k2 : A -> M B) :
  (forall w, m1 w = m2 w) -> (forall a w, k1 a w = k2 a w) ->
  forall w, bind m1 k1 w = bind m2 k2 w.
Proof.
  intros Hm Hk w. rewrite (bind_ext_l _ _ _ Hm). apply bind_ext, Hk.
Qed.

(** Under the English names the two functions are those of the sections
    above. *)
Lemma kernel_in_english (date_ : string) (w : stdout) :
  str2date_kernel_in english date_ w = str2date_kernel date_ w.
Proof. reflexivity. Qed.

Lemma as_date_loop_in_english (str_date : list pyobj) (js : list nat) :
  forall (date_ : option string) (date_list : list pyobj) (w : stdout),
    as_date_loop_in english str_date js date_ date_list w
    = as_date_loop str_date js date_ date_list w.
Proof.
  induction js as [| j js IH]; intros date_ date_list w;
    cbn [as_date_loop_in as_date_loop]; [reflexivity |].
  do 5 (apply bind_ext; intros ? ?).
  apply bind_ext_both; [apply kernel_in_english | intros d w'; apply IH].
Qed.

Lemma as_date_in_english (x : pyobj) (w : stdout) :
  as_date_in english x w = as_date x w.
Proof.
  unfold as_date_in, as_date. revert w. apply bind_ext_l.
  destruct x as [s | n | b | f | f | n | d | ns | | l | l | l | r o];
    cbn [isinstance_Timestamp isinstance_Series isinstance_ndarray to_list
         type_is_date isinstance_int isinstance_np_float64 orb];
    try reflexivity;
    try (apply bind_ext_both; [reflexivity | intros n' w'];
         apply bind_ext_both; [apply kernel_in_english | reflexivity]);
    try (apply bind_ext_both; [apply kernel_in_english | reflexivity]).
  all: destruct (len_list l =? 0); [reflexivity |];
    destruct (len_list l =? 1);
    [ do 2 (apply bind_ext; intros ? ?);
      apply bind_ext_both; [apply kernel_in_english | reflexivity]
    | apply bind_ext_both; [apply as_date_loop_in_english | reflexivity] ].
Qed.

Lemma as_date_in_str (loc : locale) (date_ : string) (w : stdout) :
  as_date_in loc (PStr date_) w =
  match str2date_kernel_in loc date_ w with
  | (w', Ok d) => (w', Ok (PDate d))
  | (w', Raise e) => (w', Raise e)
  end.
Proof.
  unfold as_date_in, bind. cbn.
  destruct (str2date_kernel_in loc date_ w) as [w' [d | e]]; reflexivity.
Qed.

(** A text that is given to none of the three branches that call [strptime]
    is parsed without a look at the locale. *)
Lemma kernel_in_any_locale (loc1 loc2 : locale) (date_ : string) (w : stdout) :
  reads_month_names date_ = false ->
  str2date_kernel_in loc1 date_ w = str2date_kernel_in loc2 date_ w.
Proof.
  unfold reads_month_names, str2date_kernel_in.
  destruct (guard1 date_); [discriminate |].
  destruct (guard2 date_); [discriminate |].
  destruct (guard3 date_); [reflexivity |].
  destruct (guard4 date_); [reflexivity |].
  destruct (guard5 date_); [reflexivity |].
  destruct (guard6 date_); [discriminate | reflexivity].
Qed.

Ltac silent_branch :=
  repeat first
    [ silent_leaf
    | apply silent_bind; [| intros ?]
    | match goal with
      | |- silent (match ?p with _ => _ end) => destruct p
      end ].

Lemma kernel_in_framed (loc : locale) (date_ : string) :
  framed (str2date_kernel_in loc date_).
Proof.
  unfold str2date_kernel_in.
  destruct (guard1 date_); [apply silent_framed; silent_branch |].
  destruct (guard2 date_); [apply silent_framed; silent_branch |].
  destruct (guard3 date_); [apply silent_framed; silent_branch |].
  destruct (guard4 date_); [apply silent_framed; silent_branch |].
  destruct (guard5 date_); [apply silent_framed; silent_branch |].
  destruct (guard6 date_); [apply silent_framed; silent_branch |].
  apply (framed_printed_raise _ (format_diagnostic date_) UnboundLocalError).
  intros w. cbn. rewrite <- app_assoc. reflexivity.
Qed.

Lemma as_date_in_undispatched (loc : locale) (x : pyobj) (w : stdout) :
  dispatched x = false ->
  as_date_in loc x w = (w ++ type_diagnostic x, Raise UnboundLocalError).
Proof.
  destruct x as [| | | | | | | | | | | | r [n |]]; try discriminate; intros _;
    cbn; rewrite <- !app_assoc; reflexivity.
Qed.

Lemma as_date_loop_in_framed (loc : locale) (str_date : list pyobj)
    (js : list nat) :
  forall (date_ : option string) (date_list : list pyobj),
    framed (as_date_loop_in loc str_date js date_ date_list).
Proof.
  induction js as [| j js IH]; intros date_ date_list; cbn [as_date_loop_in].
  - apply silent_framed, silent_ret.
  - framed_step; [framed_step |].
    framed_step.
    { destruct a; repeat framed_step. destruct (isdigit s); repeat framed_step. }
    framed_step.
    { destruct a; repeat framed_step. destruct (negb (isdigit s)); repeat framed_step. }
    framed_step.
    { destruct (isinstance_int a || isinstance_np_float64 a); repeat framed_step. }
    framed_step; [framed_step |].
    framed_step; [apply kernel_in_framed |]. apply IH.
Qed.

Lemma as_date_in_framed (loc : locale) (x : pyobj) : framed (as_date_in loc x).
Proof.
  destruct (dispatched x) eqn:Hx.
  - unfold as_date_in. framed_step; [| framed_step].
    destruct x as [s | n | b | f | f | n | d | ns | | l | l | l | r o];
      try discriminate; cbn [isinstance_Timestamp isinstance_Series
        isinstance_ndarray to_list type_is_date isinstance_int
        isinstance_np_float64 orb];
      repeat first [ apply kernel_in_framed | apply as_date_loop_in_framed
                   | framed_step
                   | match goal with
                     | |- framed (if ?b then _ else _) => destruct b
                     end ].
  - apply (framed_printed_raise _ (type_diagnostic x) UnboundLocalError).
    intros w. apply as_date_in_undispatched, Hx.
Qed.

(** C9 (as stated, refuted). Normalising the text ["hello"] writes two
    lines to stdout; and the text ["Mei 2014"] is the first of May 2014
    under the Dutch month names and raises ValueError under the English
    ones, so that two calls with this argument, the locale changed between
    them, differ. *)
Lemma not_a_pure_function :
  as_date (PStr "hello") [] = (format_diagnostic "hello", Raise UnboundLocalError)
  /\ format_diagnostic "hello" <> []
  /\ as_date_in dutch (PStr "Mei 2014") [] = ([], Ok (PDate (mkdate 2014 5 1)))
  /\ as_date_in english (PStr "Mei 2014") [] = ([], Raise ValueError).
Proof.
  split; [reflexivity |]. split; [discriminate |]. split; reflexivity.
Qed.

(** C9 (amended). Under any locale, what a call of [as_date] appends to
    stdout and what it returns are the same whatever stdout held before,
    and a call that returns a value has printed nothing; a second call with
    the same argument under the same locale gives the result of the first.
    The locale is read in the three branches that call [strptime] only: a
    text given to another branch is normalised alike under any two
    locales.  Under the English names [as_date_in] is [as_date]. *)
Theorem as_date_reads_argument_and_locale :
  (forall (loc : locale) (x : pyobj),
     exists (out : stdout) (r : result pyobj),
       (forall w, as_date_in loc x w = (w ++ out, r))
       /\ (out = [] \/ is_Ok r = false))
  /\ (forall (loc : locale) (x : pyobj) (w : stdout),
        snd (as_date_in loc x (fst (as_date_in loc x w)))
        = snd (as_date_in loc x w))
  /\ (forall (loc1 loc2 : locale) (date_ : string) (w : stdout),
        reads_month_names date_ = false ->
        as_date_in loc1 (PStr date_) w = as_date_in loc2 (PStr date_) w)
  /\ (forall (x : pyobj) (w : stdout), as_date_in english x w = as_date x w).
Proof.
  split; [exact as_date_in_framed |].
  split.
  { intros loc x w. destruct (as_date_in_framed loc x) as (out & r & H & _).
    rewrite !H. reflexivity. }
  split; [| exact as_date_in_english].
  intros loc1 loc2 date_ w H.
  rewrite !as_date_in_str, (kernel_in_any_locale loc1 loc2 _ _ H). reflexivity.
Qed.

Lemma as_date_reads_argument_and_locale_witness :
  reads_month_names "2016-07" = false
  /\ as_date_in dutch (PStr "2016-07") [] = as_date_in english (PStr "2016-07") [].
Proof.
  split; [reflexivity |].
  apply (proj1 (proj2 (proj2 as_date_reads_argument_and_locale))).
  reflexivity.
Defined.

(** *** Sequences of plain elements *)

Lemma as_date_plain (x : pyobj) (w : stdout) :
  plain_element x = true ->
  as_date x w =
  match element_text x with
  | Ok s =>
      match str2date_kernel s w with
      | (w', Ok d) => (w', Ok (PDate d))
      | (w', Raise e) => (w', Raise e)
      end
  | Raise e => (w, Raise e)
  end.
Proof.
  destruct x; try discriminate; intros _.
  - apply as_date_str.
  - unfold as_date, bind. cbn.
    destruct (str2date_kernel (str_of_int n) w) as [w' [d | e]]; reflexivity.
  - unfold as_date, bind. cbn.
    destruct (str2date_kernel _ w) as [w' [d | e]]; reflexivity.
  - unfold as_date, bind. cbn.
    destruct (int_of_float f) as [n | e]; cbn; [| reflexivity].
    destruct (str2date_kernel (str_of_int n) w) as [w' [d | e]]; reflexivity.
Qed.

Lemma loop_plain_step (str_date : list pyobj) (j : nat) (js : list nat)
    (date_ : option string) (date_list : list pyobj) (x : pyobj) (w : stdout) :
  str_date !! j = Some x ->
  plain_element x = true ->
  as_date_loop str_date (j :: js) date_ date_list w =
  match element_text x with
  | Ok s =>
      match str2date_kernel s w with
      | (w', Ok d) =>
          as_date_loop str_date js (Some s) (<[j := PDate d]> date_list) w'
      | (w', Raise e) => (w', Raise e)
      end
  | Raise e => (w, Raise e)
  end.
Proof.
  intros Hj Hx. cbn [as_date_loop].
  unfold bind at 1. unfold list_index, lift. rewrite Hj.
  destruct x; try discriminate; cbn [element_text py_int rbind].
  - cbn [plain_element] in Hx. cbv beta iota delta [bind lift ret load].
    destruct (isdigit s) eqn:Hd; cbn [negb py_int isinstance_int
      isinstance_np_float64 orb].
    + destruct (int_of_str s) as [n | e]; [| discriminate].
      apply String.eqb_eq in Hx. rewrite Hx. cbv beta iota.
      destruct (str2date_kernel s w) as [w' [d | e]]; reflexivity.
    + destruct (str2date_kernel s w) as [w' [d | e]]; reflexivity.
  - cbv beta iota delta [bind lift ret load]. cbn.
    destruct (str2date_kernel (str_of_int n) w) as [w' [d | e]]; reflexivity.
  - cbv beta iota delta [bind lift ret load]. cbn.
    destruct (str2date_kernel _ w) as [w' [d | e]]; reflexivity.
  - cbv beta iota delta [bind lift ret load]. cbn.
    destruct (int_of_float f) as [n | e]; cbn; [| reflexivity].
    destruct (str2date_kernel (str_of_int n) w) as [w' [d | e]]; reflexivity.
Qed.

Lemma loop_plain (rest : list pyobj) :
  forall (pre acc : list pyobj) (date_ : option string) (w : stdout),
    List.length acc = List.length pre ->
    forallb plain_element rest = true ->
    as_date_loop (pre ++ rest) (seq (List.length pre) (List.length rest)) date_
      (acc ++ replicate (List.length rest) (PList [PNone])) w
    = bind (each rest) (fun ds => ret (acc ++ ds)) w.
Proof.
  induction rest as [| x rest IH]; intros pre acc date_ w Hacc Hplain.
  - reflexivity.
  - cbn [forallb] in Hplain. apply andb_true_iff in Hplain as [Hx Hrest].
    cbn [List.length seq replicate].
    rewrite (loop_plain_step _ _ _ _ _ x w); [| by apply list_lookup_middle | exact Hx].
    cbn [each]. unfold bind at 1 2. rewrite (as_date_plain x w Hx).
    destruct (element_text x) as [s | e]; [| reflexivity].
    destruct (str2date_kernel s w) as [w' [d | e]]; [| reflexivity].
    rewrite <- Hacc, (insert_app_r_alt acc _ (List.length acc)) by lia.
    rewrite Nat.sub_diag. cbn [insert list_insert].
    replace (pre ++ x :: rest) with ((pre ++ [x]) ++ rest)
      by (rewrite <- app_assoc; reflexivity).
    replace (acc ++ PDate d :: replicate (List.length rest) (PList [PNone]))
      with ((acc ++ [PDate d]) ++ replicate (List.length rest) (PList [PNone]))
      by (rewrite <- app_assoc; reflexivity).
    replace (S (List.length acc)) with (List.length (pre ++ [x]))
      by (rewrite length_app; cbn; lia).
    rewrite IH; [| rewrite !length_app; cbn; lia | exact Hrest].
    unfold bind, ret.
    destruct (each rest w') as [w'' [ds | e]]; [| reflexivity].
    rewrite <- app_assoc. reflexivity.
Qed.

(** A sequence of more than one plain element is normalised element by
    element, in order. *)
Lemma sequence_of_plain_elements (l : list pyobj) (w : stdout) :
  (1 < List.length l)%nat ->
  forallb plain_element l = true ->
  as_date (PList l) w = bind (each l) (fun ds => ret (PList ds)) w.
Proof.
  intros Hlen Hplain.
  unfold as_date. cbn [isinstance_Timestamp isinstance_Series isinstance_ndarray].
  assert (H0 : (len_list l =? 0) = false)
    by (apply Z.eqb_neq; unfold len_list; lia).
  assert (H1 : (len_list l =? 1) = false)
    by (apply Z.eqb_neq; unfold len_list; lia).
  rewrite H0, H1.
  pose proof (loop_plain l [] [] None w eq_refl Hplain) as Hloop.
  cbn [app List.length] in Hloop.
  unfold bind at 1 2. rewrite Hloop.
  unfold bind, ret.
  destruct (each l w) as [w' [ds | e]]; reflexivity.
Qed.

(** ** Further properties of the two functions *)

Lemma bind_Ok_inv {A B} (m : M A) (k : A -> M B) (w w' : stdout) (b : B) :
  bind m k w = (w', Ok b) ->
  exists (a : A) (w1 : stdout), m w = (w1, Ok a) /\ k a w1 = (w', Ok b).
Proof.
  unfold bind. destruct (m w) as [w1 [a | e]]; [| discriminate].
  intros H. exists a, w1. split; [reflexivity | exact H].
Qed.

Lemma lift_Ok_inv {A} (r : result A) (w w' : stdout) (a : A) :
  lift r w = (w', Ok a) -> r = Ok a /\ w' = w.
Proof.
  unfold lift. intros H. injection H as -> ->. split; reflexivity.
Qed.

Lemma load_Ok_inv {A} (v : option A) (w w' : stdout) (a : A) :
  load v w = (w', Ok a) -> v = Some a /\ w' = w.
Proof.
  destruct v; cbn; intros H; [| discriminate].
  injection H as -> ->. split; reflexivity.
Qed.

Lemma date_new_valid (y m d : pyobj) (r : date) :
  date_new y m d = Ok r -> valid_date r = true.
Proof.
  unfold date_new, rbind, valid_date.
  destruct (c_int y) as [y' |]; [| discriminate].
  destruct (c_int m) as [m' |]; [| discriminate].
  destruct (c_int d) as [d' |]; [| discriminate].
  destruct (in_range 1 9999 y') eqn:Hy; [| discriminate].
  destruct (in_range 1 12 m') eqn:Hm; [| discriminate].
  destruct (in_range 1 (days_in_month y' m') d') eqn:Hd; [| discriminate].
  cbn. intros H. injection H as <-. cbn. rewrite Hy, Hm, Hd. reflexivity.
Qed.

Lemma make_date_Ok_inv (vars : locals) (w w' : stdout) (r : date) :
  make_date vars w = (w', Ok r) ->
  w' = w
  /\ exists y m : pyobj,
       fst (fst vars) = Some y /\ snd (fst vars) = Some m
       /\ date_new y m (match snd vars with PNone => PInt 1 | d => d end) = Ok r.
Proof.
  destruct vars as [[year month] day]. unfold make_date.
  assert (H : forall d0,
             bind (load year) (fun y => bind (load month)
               (fun m => lift (date_new y m d0))) w = (w', Ok r) ->
             w' = w /\ exists y m, year = Some y /\ month = Some m
                                 /\ date_new y m d0 = Ok r).
  { intros d0 H.
    apply bind_Ok_inv in H as (y & w1 & Hy & H).
    apply load_Ok_inv in Hy as [-> ->].
    apply bind_Ok_inv in H as (m & w2 & Hm & H).
    apply load_Ok_inv in Hm as [-> ->].
    apply lift_Ok_inv in H as [H ->].
    split; [reflexivity |]. exists y, m. auto. }
  destruct day; intros Hk; apply H in Hk; exact Hk.
Qed.

(** What the closing [return] is given: nothing has been printed unless
    the year is unassigned, and the day is unassigned except in the fifth
    branch. *)
Lemma first_match_Ok_inv (date_ : string) (w w' : stdout) (vars : locals) :
  first_match pattern_table date_ w = (w', Ok vars) ->
  (fst (fst vars) = None \/ w' = w)
  /\ (snd vars = PNone \/ (guard5 date_ = true /\ exists n, snd vars = PInt n)).
Proof.
  unfold pattern_table, first_match.
  destruct (guard1 date_).
  { unfold rule_Mon_YYYY. run_results; intros H; inversion H; auto. }
  destruct (guard2 date_).
  { unfold rule_Month_YYYY. run_results; intros H; inversion H; auto. }
  destruct (guard3 date_).
  { unfold rule_YYYYMM. run_results; intros H; inversion H; auto. }
  destruct (guard4 date_).
  { unfold rule_YYYY_MM. run_results; intros H; inversion H; auto. }
  destruct (guard5 date_).
  { unfold rule_YYYY_MM_DD. run_results; intros H; inversion H.
    split; [right; reflexivity |].
    right. split; [reflexivity |]. eexists. reflexivity. }
  destruct (guard6 date_).
  { unfold rule_Mon_YY. run_results; intros H; inversion H; auto. }
  unfold unrecognized, bind, print, ret. intros H. inversion H. subst.
  cbn. auto.
Qed.

Lemma kernel_Ok_inv (date_ : string) (w w' : stdout) (d : date) :
  str2date_kernel date_ w = (w', Ok d) ->
  valid_date d = true /\ w' = w /\ (len date_ <> 10 -> day d = 1).
Proof.
  rewrite kernel_first_match. intros H.
  apply bind_Ok_inv in H as (vars & w1 & Hf & Hm).
  apply first_match_Ok_inv in Hf as (Hw & Hday).
  apply make_date_Ok_inv in Hm as (-> & y & m & Hy & _ & Hnew).
  destruct Hw as [Hw | ->]; [congruence |].
  split; [exact (date_new_valid _ _ _ _ Hnew) |]. split; [reflexivity |].
  intros Hlen.
  destruct Hday as [Hday | [Hg5 _]].
  - rewrite Hday in Hnew. unfold date_new, rbind in Hnew.
    destruct (c_int y); [| discriminate]. destruct (c_int m); [| discriminate].
    cbn in Hnew.
    repeat match type of Hnew with
           | (if ?b then _ else _) = _ => destruct b; [discriminate |]
           end.
    injection Hnew as <-. reflexivity.
  - unfold guard5 in Hg5. apply andb_true_iff in Hg5 as [Hg5 _].
    apply Z.eqb_eq in Hg5. contradiction.
Qed.

(** X1. Whenever [str2date_kernel] returns, what it returns is a date of
    the calendar (year 1..9999, month 1..12, a day the month has), nothing
    has been printed, and the day is 1 unless the text has length 10. *)
Theorem kernel_returns_valid_dates (date_ : string) (w w' : stdout) (d : date) :
  str2date_kernel date_ w = (w', Ok d) ->
  valid_date d = true /\ w' = w /\ (len date_ <> 10 -> day d = 1).
Proof.
  apply kernel_Ok_inv.
Qed.

Lemma kernel_returns_valid_dates_witness :
  str2date_kernel "2016-07" [] = ([], Ok (mkdate 2016 7 1))
  /\ valid_date (mkdate 2016 7 1) = true
  /\ @nil string = []
  /\ (len "2016-07" <> 10 -> day (mkdate 2016 7 1) = 1).
Proof.
  split; [reflexivity |].
  exact (kernel_returns_valid_dates "2016-07" [] [] (mkdate 2016 7 1) eq_refl).
Defined.

(** *** Texts of digits *)

Lemma isdigit_char_differs (c d : ascii) :
  isdigit_char c = true -> isdigit_char d = false -> Ascii.eqb c d = false.
Proof.
  intros Hc Hd. destruct (Ascii.eqb_spec c d) as [-> | _]; congruence.
Qed.

Lemma isdigit_excludes (d : ascii) (s : string) :
  isdigit_char d = false ->
  str_forall isdigit_char s = true ->
  str_contains d s = false.
Proof.
  intros Hd. induction s as [| c r IH]; cbn; [reflexivity |].
  intros H. apply andb_true_iff in H as [H1 H2].
  rewrite (isdigit_char_differs c d H1 Hd), (IH H2). reflexivity.
Qed.

(** X2. A text made of digits only is parsed only when it has six of them:
    at any other length, the eight of [YYYYMMDD] included, no guard holds,
    the diagnostic is printed and the call ends in UnboundLocalError. *)
Theorem digits_need_length_six (date_ : string) (w : stdout) :
  isdigit date_ = true ->
  len date_ <> 6 ->
  str2date_kernel date_ w
  = (w ++ format_diagnostic date_, Raise UnboundLocalError).
Proof.
  intros Hd Hlen. apply kernel_no_guard.
  assert (Hall : str_forall isdigit_char date_ = true)
    by (unfold isdigit in Hd; apply andb_true_iff in Hd; tauto).
  apply Z.eqb_neq in Hlen.
  unfold no_guard, guard1, guard2, guard3, guard4, guard5, guard6.
  rewrite (isdigit_excludes "-" date_ eq_refl Hall).
  rewrite (isdigit_excludes " " date_ eq_refl Hall).
  rewrite Hd, Hlen. cbn [andb negb].
  rewrite !andb_false_r. reflexivity.
Qed.

Lemma digits_need_length_six_witness :
  isdigit "20150101" = true
  /\ len "20150101" <> 6
  /\ str2date_kernel "20150101" []
     = ([] ++ format_diagnostic "20150101", Raise UnboundLocalError).
Proof.
  split; [reflexivity |]. split; [discriminate |].
  apply (digits_need_length_six "20150101" []); [reflexivity | discriminate].
Defined.

Lemma isdigit_not_space (c : ascii) :
  isdigit_char c = true -> isspace_int c = false.
Proof.
  unfold isdigit_char, isspace_int, in_range. intros H.
  apply not_true_is_false. intros H'.
  rewrite !orb_true_iff, !andb_true_iff, !Z.leb_le, !Z.eqb_eq in H, H'. lia.
Qed.

Lemma int_digits_isdigit_inv (s : string) :
  forall (acc : Z) (b : bool) (v : Z),
    str_forall isdigit_char s = true ->
    int_digits s acc b = Some v ->
    str_forall is_ascii_digit s = true /\ v = decimal_from acc s.
Proof.
  induction s as [| c r IH]; intros acc b v Hd Hv; cbn in *.
  - destruct b; [| discriminate]. injection Hv as <-. auto.
  - apply andb_true_iff in Hd as [Hc Hr].
    destruct (is_ascii_digit c) eqn:Ha.
    + apply (IH _ _ _ Hr) in Hv. cbn. exact Hv.
    + rewrite (isdigit_char_differs c "_" Hc eq_refl) in Hv.
      rewrite (isdigit_not_space c Hc) in Hv. discriminate.
Qed.

(** [int(s)] for a text of digits: it succeeds only on decimal digits, and
    then gives the number they write. *)
Lemma int_of_str_isdigit_inv (s : string) (v : Z) :
  isdigit s = true ->
  int_of_str s = Ok v ->
  str_forall is_ascii_digit s = true /\ v = decimal s.
Proof.
  unfold isdigit. intros Hd Hv. apply andb_true_iff in Hd as [Hne Hd].
  destruct s as [| c r]; [discriminate |].
  assert (Hc : isdigit_char c = true)
    by (cbn in Hd; apply andb_true_iff in Hd; tauto).
  unfold int_of_str in Hv. cbn [lstrip] in Hv.
  rewrite (isdigit_not_space c Hc) in Hv.
  assert (Hsign : int_digits (String c r) 0 false = Some v).
  { pose proof (isdigit_char_differs c "-" Hc eq_refl) as Hm.
    pose proof (isdigit_char_differs c "+" Hc eq_refl) as Hp.
    destruct c as [[] [] [] [] [] [] [] []]; try discriminate;
      cbv beta iota in Hv;
      destruct (int_digits _ 0 false) as [v' |]; try discriminate;
      injection Hv as ->; reflexivity. }
  exact (int_digits_isdigit_inv _ _ _ _ Hd Hsign).
Qed.

Lemma date_new_fields (y m d : Z) (r : date) :
  date_new (PInt y) (PInt m) (PInt d) = Ok r -> r = mkdate y m d.
Proof.
  unfold date_new, rbind, c_int.
  repeat match goal with
         | |- context [if ?b then _ else _] => destruct b; try discriminate
         end.
  intros H. injection H as <-. reflexivity.
Qed.

Lemma isalpha_char_differs (c d : ascii) :
  isalpha_char c = true -> isalpha_char d = false -> Ascii.eqb c d = false.
Proof.
  intros Hc Hd. destruct (Ascii.eqb_spec c d) as [-> | _]; congruence.
Qed.

(** The sixth guard excludes the first five. *)
Lemma guard6_selected (date_ : string) (w : stdout) :
  guard6 date_ = true ->
  str2date_kernel date_ w = bind (rule_Mon_YY date_) make_date w
  /\ exists mon yy : string,
       split "-" date_ = [mon; yy] /\ isdigit yy = true
       /\ String.length yy = 2%nat.
Proof.
  unfold guard6, len. intros H.
  apply andb_true_iff in H as [H Hyy]. apply andb_true_iff in H as [H Hmon].
  apply andb_true_iff in H as [Hlen Hhy]. apply Z.eqb_eq in Hlen.
  destruct date_ as [| c1 [| c2 [| c3 [| c4 [| c5 [| c6 [| ? ?]]]]]]];
    cbn in Hlen; try lia.
  cbn in Hhy. apply Ascii.eqb_eq in Hhy. subst c4.
  cbn [slice_to slice_from] in Hmon, Hyy.
  assert (Hm := Hmon). assert (Hy := Hyy).
  unfold isalpha in Hm. unfold isdigit in Hy. cbn in Hm, Hy.
  rewrite !andb_true_r in Hm, Hy.
  apply andb_true_iff in Hm as [Ha1 Hm]. apply andb_true_iff in Hm as [Ha2 Ha3].
  apply andb_true_iff in Hy as [Hd5 Hd6].
  pose proof (isalpha_char_differs c1 "-" Ha1 eq_refl) as E1.
  pose proof (isalpha_char_differs c2 "-" Ha2 eq_refl) as E2.
  pose proof (isalpha_char_differs c3 "-" Ha3 eq_refl) as E3.
  pose proof (isdigit_char_differs c5 "-" Hd5 eq_refl) as E5.
  pose proof (isdigit_char_differs c6 "-" Hd6 eq_refl) as E6.
  pose proof (isalpha_char_differs c1 " " Ha1 eq_refl) as S1.
  pose proof (isalpha_char_differs c2 " " Ha2 eq_refl) as S2.
  pose proof (isalpha_char_differs c3 " " Ha3 eq_refl) as S3.
  pose proof (isdigit_char_differs c5 " " Hd5 eq_refl) as S5.
  pose proof (isdigit_char_differs c6 " " Hd6 eq_refl) as S6.
  split.
  - rewrite kernel_first_match. unfold pattern_table, first_match.
    set (txt := String c1 (String c2 (String c3 (String "-"
                  (String c5 (String c6 "")))))).
    assert (G1 : guard1 txt = false)
      by (unfold guard1; cbn; apply andb_false_r).
    assert (G2 : guard2 txt = false)
      by (unfold guard2; cbn; rewrite S1, S2, S3, S5, S6; reflexivity).
    assert (G3 : guard3 txt = false).
    { unfold guard3, isdigit. cbn.
      destruct (isdigit_char c1), (isdigit_char c2), (isdigit_char c3);
        reflexivity. }
    assert (G4 : guard4 txt = false) by reflexivity.
    assert (G5 : guard5 txt = false) by reflexivity.
    assert (G6 : guard6 txt = true).
    { unfold guard6. cbn [slice_to slice_from txt]. subst txt.
      cbn [slice_to slice_from]. rewrite Hmon, Hyy. reflexivity. }
    rewrite G1, G2, G3, G4, G5, G6. reflexivity.
  - exists (String c1 (String c2 (String c3 ""))), (String c5 (String c6 "")).
    split; [| split; [exact Hyy | reflexivity]].
    cbn [split]. rewrite E1, E2, E3, E5, E6. reflexivity.
Qed.

(** X3. A text that passes the sixth guard (three letters, a hyphen, two
    digits) is read by the sixth branch whatever the letters are, and when
    a date comes back its year is 2000 plus the two digits, between 2000
    and 2099, and its day is 1: no text of this form gives a year
    before 2000. *)
Theorem two_digit_year_is_after_2000 (date_ : string) (w w' : stdout) (d : date) :
  guard6 date_ = true ->
  str2date_kernel date_ w = (w', Ok d) ->
  year d = 2000 + decimal (slice_from 4 date_)
  /\ 2000 <= year d <= 2099 /\ day d = 1.
Proof.
  intros Hg Hk.
  destruct (guard6_selected date_ w Hg) as (Hsel & mon & yy & Hsplit & Hyy & Hlen).
  assert (Hslice : slice_from 4 date_ = yy).
  { unfold guard6, len in Hg.
    apply andb_true_iff in Hg as [Hg _]. apply andb_true_iff in Hg as [Hg _].
    apply andb_true_iff in Hg as [Hl Hh]. apply Z.eqb_eq in Hl.
    destruct date_ as [| c1 [| c2 [| c3 [| c4 [| c5 [| c6 [| ? ?]]]]]]];
      cbn in Hl; try lia.
    cbn in Hh. apply Ascii.eqb_eq in Hh. subst c4.
    cbn [split] in Hsplit. cbn [slice_from].
    destruct (Ascii.eqb c1 "-"), (Ascii.eqb c2 "-"), (Ascii.eqb c3 "-"),
      (Ascii.eqb c5 "-"), (Ascii.eqb c6 "-"); cbn in Hsplit; congruence. }
  rewrite Hsel in Hk. unfold rule_Mon_YY in Hk. rewrite Hsplit in Hk.
  apply bind_Ok_inv in Hk as (vars & w1 & Hr & Hm).
  apply bind_Ok_inv in Hr as (p & w2 & Hp & Hr).
  apply lift_Ok_inv in Hp as [Hp ->]. cbn in Hp. injection Hp as <-.
  cbn [fst snd] in Hr.
  apply bind_Ok_inv in Hr as (m & w3 & Hmon & Hr).
  apply lift_Ok_inv in Hmon as [_ ->].
  apply bind_Ok_inv in Hr as (v & w4 & Hv & Hr).
  apply lift_Ok_inv in Hv as [Hv ->].
  unfold ret in Hr. injection Hr as <- <-.
  apply make_date_Ok_inv in Hm as (_ & y' & m' & Hy' & Hm' & Hnew).
  cbn in Hy', Hm', Hnew. injection Hy' as <-. injection Hm' as <-.
  apply date_new_fields in Hnew. subst d. cbn [year day].
  destruct (int_of_str_isdigit_inv yy v Hyy Hv) as [Hasc ->].
  rewrite Hslice.
  split; [lia |]. split; [| reflexivity].
  destruct yy as [| a [| b [| ? ?]]]; try discriminate.
  cbn in Hasc. rewrite andb_true_r in Hasc.
  apply andb_true_iff in Hasc as [Ha Hb].
  apply digit_value in Ha, Hb. unfold decimal. cbn [decimal_from]. lia.
Qed.

Lemma two_digit_year_is_after_2000_witness :
  guard6 "May-12" = true
  /\ str2date_kernel "May-12" [] = ([], Ok (mkdate 2012 5 1))
  /\ year (mkdate 2012 5 1) = 2000 + decimal (slice_from 4 "May-12")
  /\ 2000 <= year (mkdate 2012 5 1) <= 2099 /\ day (mkdate 2012 5 1) = 1.
Proof.
  split; [reflexivity |]. split; [reflexivity |].
  exact (two_digit_year_is_after_2000 "May-12" [] [] (mkdate 2012 5 1)
           eq_refl eq_refl).
Defined.

(** *** What a sequence is turned into *)

Lemma loop_Ok_inv (str_date : list pyobj) (n : nat) :
  forall (k : nat) (acc : list pyobj) (date_ : option string)
         (w w' : stdout) (r : list pyobj),
    List.length acc = k ->
    as_date_loop str_date (seq k n) date_
      (acc ++ replicate n (PList [PNone])) w = (w', Ok r) ->
    exists ds : list date,
      List.length ds = n /\ Forall (fun d => valid_date d = true) ds
      /\ r = acc ++ map PDate ds.
Proof.
  induction n as [| n IH]; intros k acc date_ w w' r Hk H.
  - cbn in H. injection H as _ <-. exists []. repeat split; constructor.
  - cbn [seq as_date_loop replicate] in H.
    apply bind_Ok_inv in H as (x & w1 & _ & H).
    apply bind_Ok_inv in H as (d1 & w2 & _ & H).
    apply bind_Ok_inv in H as (d2 & w3 & _ & H).
    apply bind_Ok_inv in H as (d3 & w4 & _ & H).
    apply bind_Ok_inv in H as (arg & w5 & _ & H).
    apply bind_Ok_inv in H as (d & w6 & Hd & H).
    apply kernel_Ok_inv in Hd as (Hvalid & _ & _).
    rewrite <- Hk, (insert_app_r_alt acc _ (List.length acc)) in H by lia.
    rewrite Nat.sub_diag in H. cbn [insert list_insert] in H.
    replace (acc ++ PDate d :: replicate n (PList [PNone]))
      with ((acc ++ [PDate d]) ++ replicate n (PList [PNone])) in H
      by (rewrite <- app_assoc; reflexivity).
    apply IH in H as (ds & Hlen & Hall & ->);
      [| rewrite length_app; cbn; lia].
    exists (d :: ds). split; [cbn; lia |]. split; [constructor; assumption |].
    rewrite <- app_assoc. reflexivity.
Qed.

Lemma as_date_Ok_silent (x : pyobj) (w w' : stdout) (v : pyobj) :
  as_date x w = (w', Ok v) -> w' = w.
Proof.
  destruct (as_date_framed x) as (out & r & Hx & Hout).
  rewrite Hx. intros H. injection H as <- ->.
  destruct Hout as [-> | Hout]; [apply app_nil_r | discriminate].
Qed.

(** X4. When [as_date] returns for a list, a Series or an array of more
    than one element, it returns a list of exactly as many entries, each of
    them a date of the calendar, and nothing has been printed: no entry is
    left as the placeholder the list was filled with. *)
Theorem sequence_gives_as_many_dates (x : pyobj) (l : list pyobj)
    (w w' : stdout) (v : pyobj) :
  x = PList l \/ x = PSeries l \/ x = PNdarray l ->
  (1 < List.length l)%nat ->
  as_date x w = (w', Ok v) ->
  w' = w
  /\ exists ds : list date,
       v = PList (map PDate ds) /\ List.length ds = List.length l
       /\ Forall (fun d => valid_date d = true) ds.
Proof.
  intros Hx Hlen H. split; [exact (as_date_Ok_silent _ _ _ _ H) |].
  assert (Hl : as_date (PList l) w = (w', Ok v))
    by (destruct Hx as [-> | [-> | ->]]; exact H).
  clear H Hx. unfold as_date in Hl.
  cbn [isinstance_Timestamp isinstance_Series isinstance_ndarray] in Hl.
  assert (H0 : (len_list l =? 0) = false)
    by (apply Z.eqb_neq; unfold len_list; lia).
  assert (H1 : (len_list l =? 1) = false)
    by (apply Z.eqb_neq; unfold len_list; lia).
  rewrite H0, H1 in Hl.
  apply bind_Ok_inv in Hl as (dl & w1 & Hl & Hload).
  apply bind_Ok_inv in Hl as (r & w2 & Hloop & Hret).
  unfold ret in Hret. injection Hret as <- <-.
  apply load_Ok_inv in Hload as [Hv _]. injection Hv as <-.
  apply (loop_Ok_inv l (List.length l) 0%nat [] None) in Hloop
    as (ds & Hds & Hall & ->); [| reflexivity].
  exists ds. auto.
Qed.

Lemma sequence_gives_as_many_dates_witness :
  (PList [PStr "201405"; PStr "2015-02-21"] = PList [PStr "201405"; PStr "2015-02-21"]
   \/ PList [PStr "201405"; PStr "2015-02-21"] = PSeries [PStr "201405"; PStr "2015-02-21"]
   \/ PList [PStr "201405"; PStr "2015-02-21"] = PNdarray [PStr "201405"; PStr "2015-02-21"])
  /\ (1 < List.length [PStr "201405"; PStr "2015-02-21"])%nat
  /\ as_date (PList [PStr "201405"; PStr "2015-02-21"]) []
     = ([], Ok (PList [PDate (mkdate 2014 5 1); PDate (mkdate 2015 2 21)]))
  /\ @nil string = []
  /\ exists ds : list date,
       PList [PDate (mkdate 2014 5 1); PDate (mkdate 2015 2 21)]
       = PList (map PDate ds)
       /\ List.length ds = List.length [PStr "201405"; PStr "2015-02-21"]
       /\ Forall (fun d => valid_date d = true) ds.
Proof.
  split; [left; reflexivity |]. split; [cbn; lia |]. split; [reflexivity |].
  apply (sequence_gives_as_many_dates
           (PList [PStr "201405"; PStr "2015-02-21"])
           [PStr "201405"; PStr "2015-02-21"] [] []
           (PList [PDate (mkdate 2014 5 1); PDate (mkdate 2015 2 21)]));
    [left; reflexivity | cbn; lia | reflexivity].
Defined.

(** ** Properties of the state-name helpers *)

Lemma memb_app (x : string) (l1 l2 : list string) :
  memb x (l1 ++ l2) = memb x l1 || memb x l2.
Proof.
  induction l1 as [| y r IH]; cbn; [reflexivity |].
  rewrite IH, orb_assoc. reflexivity.
Qed.

Lemma nodupb_app (l1 l2 : list string) :
  nodupb (l1 ++ l2) = true -> nodupb l1 = true /\ nodupb l2 = true.
Proof.
  induction l1 as [| x r IH]; cbn; [auto |].
  rewrite memb_app, negb_orb, !andb_true_iff. intros [[H1 _] H2].
  apply IH in H2 as [H2 H3]. auto.
Qed.

Lemma nodupb_middle (l1 l2 : list string) (x : string) :
  nodupb (l1 ++ x :: l2) = true -> memb x l1 = false /\ memb x l2 = false.
Proof.
  induction l1 as [| y r IH]; cbn.
  - rewrite andb_true_iff, negb_true_iff. tauto.
  - rewrite memb_app, andb_true_iff, negb_true_iff, orb_false_iff. cbn.
    rewrite orb_false_iff. intros [[H1 [H2 H3]] H4].
    apply IH in H4 as [H4 H5]. rewrite H4, H5. split; [| reflexivity].
    apply orb_false_iff. split; [| reflexivity].
    rewrite String.eqb_sym. exact H2.
Qed.

Lemma assoc_skip {A} (pre d : list (string * A)) (k : string) :
  memb k (dict_keys pre) = false -> assoc (pre ++ d) k = assoc d k.
Proof.
  induction pre as [| [k' v'] r IH]; cbn; [reflexivity |].
  intros H. apply orb_false_iff in H as [H1 H2].
  rewrite H1. apply IH, H2.
Qed.

Lemma assoc_memb {A} (d : list (string * A)) (k : string) (v : A) :
  assoc d k = Some v -> memb k (dict_keys d) = true.
Proof.
  induction d as [| [k' v'] r IH]; cbn; [discriminate |].
  destruct (String.eqb k' k); [reflexivity |]. apply IH.
Qed.

Lemma dict_set_fresh (d : pydict) (k : string) (v : pyobj) :
  memb k (dict_keys d) = false -> dict_set d k v = d ++ [(k, v)].
Proof.
  induction d as [| [k' v'] r IH]; cbn; [reflexivity |].
  intros H. apply orb_false_iff in H as [H1 H2].
  rewrite H1, (IH H2). reflexivity.
Qed.

Lemma assoc_value (table : list (string * string)) (k n : string) :
  assoc table k = Some n -> memb n (map snd table) = true.
Proof.
  induction table as [| [k' n'] r IH]; cbn; [discriminate |].
  destruct (String.eqb k' k).
  - intros H. injection H as ->. rewrite String.eqb_refl. reflexivity.
  - intros H. rewrite (IH H). apply orb_true_r.
Qed.

Lemma nodupb_one_to_one (table : list (string * string)) :
  nodupb (map snd table) = true -> one_to_one table.
Proof.
  induction table as [| [k' n'] r IH]; intros Hn k1 k2 n H1 H2; cbn in *.
  - discriminate.
  - apply andb_true_iff in Hn as [Hn' Hr]. apply negb_true_iff in Hn'.
    destruct (String.eqb_spec k' k1) as [<- | _],
             (String.eqb_spec k' k2) as [<- | _]; try reflexivity.
    + injection H1 as <-. apply assoc_value in H2. congruence.
    + injection H2 as <-. apply assoc_value in H1. congruence.
    + exact (IH Hr k1 k2 n H1 H2).
Qed.

Lemma renamed_fresh (table : list (string * string)) (keys : list string)
    (k n : string) :
  one_to_one table ->
  forallb (has_key table) keys = true ->
  assoc table k = Some n ->
  memb k keys = false ->
  memb n (map (renamed table) keys) = false.
Proof.
  intros Hinj. induction keys as [| k' r IH]; cbn; [reflexivity |].
  intros Hall Hk Hm.
  apply andb_true_iff in Hall as [Hk' Hall].
  apply orb_false_iff in Hm as [Hm1 Hm2].
  rewrite (IH Hall Hk Hm2), orb_false_r.
  unfold has_key, renamed in *.
  destruct (assoc table k') as [n' |] eqn:Hn'; [| discriminate].
  destruct (String.eqb_spec n' n) as [-> | _]; [| reflexivity].
  rewrite (Hinj _ _ _ Hn' Hk), String.eqb_refl in Hm1. discriminate.
Qed.

Lemma keys_rename_items (table : list (string * string)) (d : pydict) :
  dict_keys (rename_items table d) = map (renamed table) (dict_keys d).
Proof.
  unfold dict_keys, rename_items. rewrite !map_map. reflexivity.
Qed.

(** The loop, started after the items [pre] have been renamed. *)
Lemma translate_loop_spec (table : list (string * string)) :
  one_to_one table ->
  forall (rest pre : pydict),
    nodupb (dict_keys (pre ++ rest)) = true ->
    forallb (has_key table) (dict_keys pre) = true ->
    translate_loop table (pre ++ rest) (dict_keys rest) (rename_items table pre)
    = match first_missing table rest with
      | Some k => KeyError k
      | None => Returned (rename_items table (pre ++ rest))
      end.
Proof.
  intros Hinj. induction rest as [| [k v] rest IH]; intros pre Hnd Hpre.
  - cbn. rewrite app_nil_r. reflexivity.
  - cbn [dict_keys map fst translate_loop first_missing find].
    unfold has_key at 1.
    destruct (assoc table k) as [n |] eqn:Hk; cbn [negb]; [| reflexivity].
    assert (Hfresh : memb k (dict_keys pre) = false).
    { unfold dict_keys in Hnd. rewrite map_app in Hnd. cbn in Hnd.
      apply nodupb_middle in Hnd. tauto. }
    rewrite (assoc_skip pre _ k Hfresh). cbn [assoc].
    rewrite String.eqb_refl.
    rewrite dict_set_fresh
      by (rewrite keys_rename_items;
          exact (renamed_fresh table _ k n Hinj Hpre Hk Hfresh)).
    replace (rename_items table pre ++ [(n, v)])
      with (rename_items table (pre ++ [(k, v)])).
    2:{ unfold rename_items. rewrite map_app. cbn. unfold renamed.
        rewrite Hk. reflexivity. }
    replace (pre ++ (k, v) :: rest) with ((pre ++ [(k, v)]) ++ rest)
      by (rewrite <- app_assoc; reflexivity).
    apply IH.
    + rewrite <- app_assoc. exact Hnd.
    + unfold dict_keys. rewrite map_app, forallb_app. cbn.
      unfold dict_keys in Hpre. rewrite Hpre. unfold has_key. rewrite Hk.
      reflexivity.
Qed.

Lemma one_to_one_tables :
  one_to_one abbrev_to_full_table /\ one_to_one full_to_abbrev_table
  /\ one_to_one fips2state.
Proof.
  split; [| split]; apply nodupb_one_to_one; vm_compute; reflexivity.
Qed.

Lemma one_to_one_table_for (flag : pyobj) : one_to_one (table_for flag).
Proof.
  unfold table_for. destruct (is_True flag).
  - exact (proj1 one_to_one_tables).
  - exact (proj1 (proj2 one_to_one_tables)).
Qed.

Lemma translate_with_table (dict1 : pydict) (abbrev_to_full : pyobj) :
  nodupb (dict_keys dict1) = true ->
  translate_state_abbrev dict1 abbrev_to_full
  = match first_missing (table_for abbrev_to_full) dict1 with
    | Some k => KeyError k
    | None => Returned (rename_items (table_for abbrev_to_full) dict1)
    end.
Proof.
  intros Hnd. unfold translate_state_abbrev. fold (table_for abbrev_to_full).
  exact (translate_loop_spec _ (one_to_one_table_for abbrev_to_full)
           dict1 [] Hnd eq_refl).
Qed.

(** X5. [translate_state_abbrev] on a dict: when one of its keys is not in
    the table, the first such key is raised as KeyError and nothing is
    returned, even for the keys that are; otherwise the result has the same
    items in the same order, every key replaced by its name in the table and
    every value kept.  The table is the one from abbreviations to names for
    the argument [True] alone. *)
Theorem translate_state_abbrev_spec (dict1 : pydict) (abbrev_to_full : pyobj) :
  nodupb (dict_keys dict1) = true ->
  translate_state_abbrev dict1 abbrev_to_full
  = match first_missing (table_for abbrev_to_full) dict1 with
    | Some k => KeyError k
    | None => Returned (rename_items (table_for abbrev_to_full) dict1)
    end.
Proof.
  apply translate_with_table.
Qed.

Lemma translate_state_abbrev_spec_witness :
  nodupb (dict_keys [("CA", PInt 1); ("ZZ", PInt 2); ("NY", PInt 3)]) = true
  /\ translate_state_abbrev [("CA", PInt 1); ("ZZ", PInt 2); ("NY", PInt 3)]
       (PBool true) = KeyError "ZZ"
  /\ translate_state_abbrev [("CA", PInt 1); ("NY", PInt 3)] (PBool true)
     = Returned [("California", PInt 1); ("New York", PInt 3)].
Proof.
  split; [reflexivity |]. split.
  - exact (translate_state_abbrev_spec
             [("CA", PInt 1); ("ZZ", PInt 2); ("NY", PInt 3)] (PBool true)
             eq_refl).
  - exact (translate_state_abbrev_spec
             [("CA", PInt 1); ("NY", PInt 3)] (PBool true) eq_refl).
Defined.

Lemma assoc_forallb {A} (f : string * A -> bool) (d : list (string * A))
    (k : string) (v : A) :
  forallb f d = true -> assoc d k = Some v -> f (k, v) = true.
Proof.
  induction d as [| [k' v'] r IH]; cbn; [discriminate |].
  intros H. apply andb_true_iff in H as [H1 H2].
  destruct (String.eqb_spec k' k) as [<- | _]; [| exact (IH H2)].
  intros Hv. injection Hv as <-. exact H1.
Qed.

Lemma first_missing_None (table : list (string * string)) (d : pydict) :
  first_missing table d = None <->
  forallb (has_key table) (dict_keys d) = true.
Proof.
  unfold first_missing. induction (dict_keys d) as [| k r IH]; cbn.
  - tauto.
  - destruct (has_key table k); cbn; [exact IH |].
    split; discriminate.
Qed.

Lemma nodupb_renamed (table : list (string * string)) (keys : list string) :
  one_to_one table ->
  forallb (has_key table) keys = true ->
  nodupb keys = true ->
  nodupb (map (renamed table) keys) = true.
Proof.
  intros Hinj. induction keys as [| k r IH]; cbn; [reflexivity |].
  intros Hall Hnd.
  apply andb_true_iff in Hall as [Hk Hall].
  apply andb_true_iff in Hnd as [Hfresh Hnd].
  apply negb_true_iff in Hfresh.
  rewrite (IH Hall Hnd), andb_true_r. apply negb_true_iff.
  unfold has_key in Hk. unfold renamed at 1.
  destruct (assoc table k) as [n |] eqn:Hn; [| discriminate].
  exact (renamed_fresh table r k n Hinj Hall Hn Hfresh).
Qed.

Lemma memb_forallb (f : string -> bool) (l : list string) (x : string) :
  forallb f l = true -> memb x l = true -> f x = true.
Proof.
  induction l as [| y r IH]; cbn; [discriminate |].
  intros H. apply andb_true_iff in H as [H1 H2].
  destruct (String.eqb_spec y x) as [<- | _]; [intros _; exact H1 |].
  exact (IH H2).
Qed.

(** Renaming by [t1] and then by [t2] gives back the keys that [t2] sends
    back where they came from. *)
Lemma rename_back (t1 t2 : list (string * string)) (d : pydict) :
  forallb (fun k => String.eqb (renamed t2 (renamed t1 k)) k) (dict_keys d)
  = true ->
  rename_items t2 (rename_items t1 d) = d.
Proof.
  unfold rename_items, dict_keys. rewrite map_map. cbn [fst snd].
  induction d as [| [k v] r IH]; cbn; [reflexivity |].
  intros H. apply andb_true_iff in H as [Hk Hr].
  apply String.eqb_eq in Hk. rewrite Hk, (IH Hr). reflexivity.
Qed.

(** X6. From names to abbreviations and back: a dict keyed by names of
    the fifty states is translated without KeyError in both directions,
    and the second translation gives back the dict it started from, items
    and order. *)
Theorem names_round_trip (dict1 : pydict) :
  nodupb (dict_keys dict1) = true ->
  forallb (fun k => memb k full_state_list) (dict_keys dict1) = true ->
  translate_state_abbrev dict1 (PBool false)
  = Returned (rename_items full_to_abbrev_table dict1)
  /\ translate_state_abbrev (rename_items full_to_abbrev_table dict1) (PBool true)
     = Returned dict1.
Proof.
  intros Hnd Hkeys.
  set (there_and_back := fun k =>
         has_key full_to_abbrev_table k
         && has_key abbrev_to_full_table (renamed full_to_abbrev_table k)
         && String.eqb (renamed abbrev_to_full_table
                          (renamed full_to_abbrev_table k)) k).
  assert (Hstates : forallb there_and_back full_state_list = true)
    by (vm_compute; reflexivity).
  assert (Hall : forallb there_and_back (dict_keys dict1) = true).
  { apply forallb_forall. intros k Hk.
    rewrite forallb_forall in Hkeys.
    exact (memb_forallb there_and_back full_state_list k Hstates (Hkeys k Hk)). }
  subst there_and_back.
  assert (H1 : forallb (has_key full_to_abbrev_table) (dict_keys dict1) = true).
  { rewrite forallb_forall in Hall |- *. intros k Hk.
    specialize (Hall k Hk). apply andb_true_iff in Hall as [Hall _].
    apply andb_true_iff in Hall as [Hall _]. exact Hall. }
  assert (H2 : forallb (has_key abbrev_to_full_table)
                 (map (renamed full_to_abbrev_table) (dict_keys dict1)) = true).
  { rewrite forallb_forall in Hall |- *. intros n Hn.
    apply in_map_iff in Hn as (k & <- & Hk).
    specialize (Hall k Hk). apply andb_true_iff in Hall as [Hall _].
    apply andb_true_iff in Hall as [_ Hall]. exact Hall. }
  assert (H3 : forallb (fun k => String.eqb (renamed abbrev_to_full_table
                                   (renamed full_to_abbrev_table k)) k)
                 (dict_keys dict1) = true).
  { rewrite forallb_forall in Hall |- *. intros k Hk.
    specialize (Hall k Hk). apply andb_true_iff in Hall as [_ Hall]. exact Hall. }
  split.
  - rewrite (translate_with_table _ _ Hnd).
    change (table_for (PBool false)) with full_to_abbrev_table.
    apply first_missing_None in H1. rewrite H1. reflexivity.
  - rewrite translate_with_table.
    + change (table_for (PBool true)) with abbrev_to_full_table.
      rewrite <- keys_rename_items in H2.
      apply first_missing_None in H2. rewrite H2.
      rewrite (rename_back _ _ _ H3). reflexivity.
    + rewrite keys_rename_items.
      exact (nodupb_renamed _ _ (proj1 (proj2 one_to_one_tables)) H1 Hnd).
Qed.

Lemma names_round_trip_witness :
  nodupb (dict_keys [("Texas", PInt 7); ("Ohio", PNone)]) = true
  /\ forallb (fun k => memb k full_state_list)
       (dict_keys [("Texas", PInt 7); ("Ohio", PNone)]) = true
  /\ translate_state_abbrev [("Texas", PInt 7); ("Ohio", PNone)] (PBool false)
     = Returned [("TX", PInt 7); ("OH", PNone)]
  /\ translate_state_abbrev [("TX", PInt 7); ("OH", PNone)] (PBool true)
     = Returned [("Texas", PInt 7); ("Ohio", PNone)].
Proof.
  split; [reflexivity |]. split; [reflexivity |].
  exact (names_round_trip [("Texas", PInt 7); ("Ohio", PNone)] eq_refl eq_refl).
Defined.

Lemma find_map {A B} (f : A -> B) (p : B -> bool) (l : list A) :
  find p (map f l) = option_map f (find (fun x => p (f x)) l).
Proof.
  induction l as [| x r IH]; cbn; [reflexivity |].
  destruct (p (f x)); [reflexivity | exact IH].
Qed.

(** X7. From abbreviations to names and back: the way back raises KeyError
    for the name of the first key that is not one of the fifty states, the
    District of Columbia and the territories being in the first table only;
    when every key is a state the dict comes back as it was. *)
Theorem abbreviations_round_trip (dict1 : pydict) :
  nodupb (dict_keys dict1) = true ->
  forallb (has_key abbrev_to_full_table) (dict_keys dict1) = true ->
  translate_state_abbrev dict1 (PBool true)
  = Returned (rename_items abbrev_to_full_table dict1)
  /\ translate_state_abbrev (rename_items abbrev_to_full_table dict1) (PBool false)
     = match find (fun k => negb (has_key full_to_abbrev_table
                                    (renamed abbrev_to_full_table k)))
               (dict_keys dict1) with
       | Some k => KeyError (renamed abbrev_to_full_table k)
       | None => Returned dict1
       end.
Proof.
  intros Hnd Hkeys. split.
  - rewrite (translate_with_table _ _ Hnd).
    change (table_for (PBool true)) with abbrev_to_full_table.
    apply first_missing_None in Hkeys. rewrite Hkeys. reflexivity.
  - rewrite translate_with_table.
    2:{ rewrite keys_rename_items.
        exact (nodupb_renamed _ _ (proj1 one_to_one_tables) Hkeys Hnd). }
    change (table_for (PBool false)) with full_to_abbrev_table.
    unfold first_missing. rewrite keys_rename_items, find_map.
    destruct (find _ (dict_keys dict1)) as [k |] eqn:Hfind; cbn [option_map];
      [reflexivity |].
    rewrite rename_back; [reflexivity |].
    apply forallb_forall. intros k Hk.
    pose proof (find_none _ _ Hfind k Hk) as Hback.
    apply negb_false_iff in Hback.
    rewrite forallb_forall in Hkeys. specialize (Hkeys k Hk).
    unfold has_key in Hkeys, Hback. unfold renamed in Hback |- *.
    destruct (assoc abbrev_to_full_table k) as [n |] eqn:Hn; [| discriminate].
    destruct (assoc full_to_abbrev_table n) as [a |] eqn:Ha; [| discriminate].
    assert (Hinv : forallb (fun an =>
                     match assoc full_to_abbrev_table (snd an) with
                     | Some a' => String.eqb a' (fst an)
                     | None => true
                     end) abbrev_to_full_table = true)
      by (vm_compute; reflexivity).
    pose proof (assoc_forallb _ _ _ _ Hinv Hn) as Hkn.
    cbn [fst snd] in Hkn. rewrite Ha in Hkn. exact Hkn.
Qed.

Lemma abbreviations_round_trip_witness :
  nodupb (dict_keys [("MD", PInt 1); ("DC", PInt 2)]) = true
  /\ forallb (has_key abbrev_to_full_table)
       (dict_keys [("MD", PInt 1); ("DC", PInt 2)]) = true
  /\ translate_state_abbrev [("MD", PInt 1); ("DC", PInt 2)] (PBool true)
     = Returned [("Maryland", PInt 1); ("District of Columbia", PInt 2)]
  /\ translate_state_abbrev
       [("Maryland", PInt 1); ("District of Columbia", PInt 2)] (PBool false)
     = KeyError "District of Columbia".
Proof.
  split; [reflexivity |]. split; [reflexivity |].
  exact (abbreviations_round_trip [("MD", PInt 1); ("DC", PInt 2)]
           eq_refl eq_refl).
Defined.

(** X8. [convert_FIPS_to_state_name]: a key that is not one of the 51
    two-digit codes of the table is raised as KeyError, the first one in
    the order of the dict; otherwise the second translation cannot fail,
    and the result has the same items in the same order under the full
    names. *)
Theorem convert_FIPS_to_state_name_spec (dict1 : pydict) :
  nodupb (dict_keys dict1) = true ->
  convert_FIPS_to_state_name dict1
  = match first_missing fips2state dict1 with
    | Some k => KeyError k
    | None =>
        Returned (rename_items abbrev_to_full_table
                    (rename_items fips2state dict1))
    end.
Proof.
  intros Hnd. unfold convert_FIPS_to_state_name.
  pose proof (translate_loop_spec _ (proj2 (proj2 one_to_one_tables)) dict1 []
                Hnd eq_refl) as Hloop.
  change (rename_items fips2state []) with ([] : pydict) in Hloop.
  cbn [app] in Hloop. rewrite Hloop.
  destruct (first_missing fips2state dict1) eqn:Hmiss; [reflexivity |].
  apply first_missing_None in Hmiss.
  rewrite translate_with_table.
  2:{ rewrite keys_rename_items.
      exact (nodupb_renamed _ _ (proj2 (proj2 one_to_one_tables)) Hmiss Hnd). }
  change (table_for (PBool true)) with abbrev_to_full_table.
  assert (Hnames : first_missing abbrev_to_full_table
                     (rename_items fips2state dict1) = None).
  { apply first_missing_None. rewrite keys_rename_items.
    apply forallb_forall. intros n Hn.
    apply in_map_iff in Hn as (k & <- & Hk).
    rewrite forallb_forall in Hmiss. specialize (Hmiss k Hk).
    unfold has_key in Hmiss. unfold renamed.
    destruct (assoc fips2state k) as [a |] eqn:Ha; [| discriminate].
    assert (Hin : forallb (fun ka => has_key abbrev_to_full_table (snd ka))
                    fips2state = true) by (vm_compute; reflexivity).
    exact (assoc_forallb _ _ _ _ Hin Ha). }
  rewrite Hnames. reflexivity.
Qed.

Lemma convert_FIPS_to_state_name_spec_witness :
  nodupb (dict_keys [("06", PInt 1); ("11", PInt 2)]) = true
  /\ convert_FIPS_to_state_name [("06", PInt 1); ("11", PInt 2)]
     = Returned [("California", PInt 1); ("District of Columbia", PInt 2)]
  /\ convert_FIPS_to_state_name [("6", PInt 1)] = KeyError "6".
Proof.
  split; [reflexivity |]. split.
  - exact (convert_FIPS_to_state_name_spec
             [("06", PInt 1); ("11", PInt 2)] eq_refl).
  - exact (convert_FIPS_to_state_name_spec [("6", PInt 1)] eq_refl).
Defined.

Lemma assoc_listed (g : string -> pyobj) (l : list string) (x : string) :
  memb x l = true -> assoc (map (fun s => (s, g s)) l) x = Some (g x).
Proof.
  induction l as [| y r IH]; cbn; [discriminate |].
  destruct (String.eqb_spec y x) as [-> | _]; [reflexivity | exact IH].
Qed.

Lemma check_loop_spec (dict1 : pydict) (rest : list string) :
  forall (pre : list string) (w : stdout),
    nodupb (pre ++ rest) = true ->
    check_loop dict1 rest (map (fun s => (s, value_or_nan dict1 s)) pre) w
    = (w ++ map missing_line (List.filter (fun s => negb (has_key dict1 s)) rest),
       Ok (map (fun s => (s, value_or_nan dict1 s)) (pre ++ rest))).
Proof.
  induction rest as [| s rest IH]; intros pre w Hnd.
  - cbn. rewrite !app_nil_r. reflexivity.
  - assert (Hfresh : memb s (dict_keys
                       (map (fun s => (s, value_or_nan dict1 s)) pre)) = false).
    { unfold dict_keys. rewrite map_map. cbn [fst]. rewrite map_id.
      apply nodupb_middle in Hnd. tauto. }
    assert (Hnext : forall v, value_or_nan dict1 s = v ->
              dict_set (map (fun s => (s, value_or_nan dict1 s)) pre) s v
              = map (fun s => (s, value_or_nan dict1 s)) (pre ++ [s])).
    { intros v <-. rewrite (dict_set_fresh _ _ _ Hfresh), map_app.
      reflexivity. }
    assert (Hnd' : nodupb ((pre ++ [s]) ++ rest) = true)
      by (rewrite <- app_assoc; exact Hnd).
    cbn [check_loop List.filter]. unfold has_key.
    destruct (assoc dict1 s) as [v |] eqn:Hs; cbn [negb].
    + rewrite (Hnext v) by (unfold value_or_nan; rewrite Hs; reflexivity).
      rewrite (IH _ _ Hnd'), <- app_assoc. reflexivity.
    + unfold bind, print.
      rewrite (Hnext nan) by (unfold value_or_nan; rewrite Hs; reflexivity).
      rewrite (IH _ _ Hnd'), <- !app_assoc. reflexivity.
Qed.

Lemma check_loop_start (dict1 : pydict) (states : list string) (w : stdout) :
  nodupb states = true ->
  check_loop dict1 states [] w
  = (w ++ map missing_line
            (List.filter (fun s => negb (has_key dict1 s)) states),
     Ok (map (fun s => (s, value_or_nan dict1 s)) states)).
Proof.
  exact (check_loop_spec dict1 states [] w).
Qed.

Lemma check_all_states_spec_aux (dict1 : pydict) (w : stdout) :
  check_all_states dict1 w
  = (w ++ map missing_line
            (List.filter (fun s => negb (has_key dict1 s)) full_state_list),
     Ok (map (fun s => (s, value_or_nan dict1 s)) full_state_list)).
Proof.
  unfold check_all_states. cbn [sort_value differs_from_list].
  apply check_loop_start. vm_compute. reflexivity.
Qed.

Lemma filter_none {A} (f : A -> bool) (l : list A) :
  (forall x, In x l -> f x = false) -> List.filter f l = [].
Proof.
  induction l as [| x r IH]; cbn; [reflexivity |].
  intros H. rewrite (H x (or_introl eq_refl)). apply IH.
  intros y Hy. apply H. right. exact Hy.
Qed.

(** X9. Whatever dict it is given, [check_all_states] builds a new dict
    with exactly the fifty states as keys, in the order of its own list:
    a state holds the value the dict had for it, or NaN with one printed
    line when the dict had none; every other key of the dict is dropped
    without a word.  The comparison that should spare a complete dict never
    holds, [sort()] giving None. *)
Theorem check_all_states_spec (dict1 : pydict) (w : stdout) :
  check_all_states dict1 w
  = (w ++ map missing_line
            (List.filter (fun s => negb (has_key dict1 s)) full_state_list),
     Ok (map (fun s => (s, value_or_nan dict1 s)) full_state_list)).
Proof.
  apply check_all_states_spec_aux.
Qed.

(** The dict built over a list of states has all of them. *)
Lemma built_dict_complete (dict1 : pydict) (states : list string) :
  let dict2 := map (fun s => (s, value_or_nan dict1 s)) states in
  List.filter (fun s => negb (has_key dict2 s)) states = []
  /\ map (fun s => (s, value_or_nan dict2 s)) states = dict2.
Proof.
  intros dict2.
  assert (Hval : forall s, In s states ->
            assoc dict2 s = Some (value_or_nan dict1 s)).
  { intros s Hs. apply assoc_listed.
    clear dict2. induction states as [| y r IH]; cbn; [destruct Hs |].
    destruct Hs as [-> | Hs]; [rewrite String.eqb_refl; reflexivity |].
    rewrite (IH Hs). apply orb_true_r. }
  split.
  - apply filter_none. intros s Hs. unfold has_key.
    rewrite (Hval s Hs). reflexivity.
  - apply map_ext_in. intros s Hs. unfold value_or_nan at 1.
    rewrite (Hval s Hs). reflexivity.
Qed.

(** X10. [check_all_states] is idempotent: given a dict it has returned,
    it returns the same dict, items and order, and prints nothing. *)
Theorem check_all_states_idempotent (dict1 dict2 : pydict) (w w1 w2 : stdout) :
  check_all_states dict1 w = (w1, Ok dict2) ->
  check_all_states dict2 w2 = (w2, Ok dict2).
Proof.
  rewrite check_all_states_spec_aux. intros H.
  assert (Hd : dict2 = map (fun s => (s, value_or_nan dict1 s)) full_state_list)
    by congruence.
  clear H. rewrite check_all_states_spec_aux.
  destruct (built_dict_complete dict1 full_state_list) as [Hf Hm].
  cbv zeta in Hf, Hm. rewrite <- Hd in Hf, Hm.
  rewrite Hf, Hm. cbn [map]. rewrite app_nil_r. reflexivity.
Qed.

Lemma check_all_states_idempotent_witness :
  exists (w1 : stdout) (dict2 : pydict),
    check_all_states [("Ohio", PInt 3); ("Guam", PInt 4)] [] = (w1, Ok dict2)
    /\ List.length dict2 = 50%nat
    /\ check_all_states dict2 [] = ([], Ok dict2).
Proof.
  eexists. eexists. split; [apply check_all_states_spec_aux |].
  split; [reflexivity |].
  eapply (check_all_states_idempotent [("Ohio", PInt 3); ("Guam", PInt 4)]
            _ [] _ []).
  apply check_all_states_spec_aux.
Defined.

(** ** Properties of [calc_month_interval] *)

Lemma calc_month_interval_ends (date0 date9 : date) (mid : list date) :
  calc_month_interval (date0 :: mid ++ [date9])
  = Ok (days_between date9 date0 / 30).
Proof.
  unfold calc_month_interval.
  rewrite app_comm_cons, last_snoc. reflexivity.
Qed.

Lemma days_in_month_le_31 (y m : Z) : days_in_month y m <= 31.
Proof.
  unfold days_in_month.
  repeat match goal with
         | |- context [if ?b then _ else _] => destruct b
         end; lia.
Qed.

(** X11. Dates of one and the same month, the last not before the first:
    the interval is 0 months, and 1 only from the 1st to the 31st; so is it
    for a series of a single date.  A series that stays within a month is
    thus given the interval 0. *)
Theorem interval_within_a_month (y m d0 d9 : Z) (mid : list date) :
  valid_date (mkdate y m d0) = true ->
  valid_date (mkdate y m d9) = true ->
  d0 <= d9 ->
  calc_month_interval (mkdate y m d0 :: mid ++ [mkdate y m d9])
  = Ok (if d9 - d0 =? 30 then 1 else 0)
  /\ calc_month_interval [mkdate y m d0] = Ok 0.
Proof.
  unfold valid_date. cbn [year month day]. intros H0 H9 Hle.
  apply andb_true_iff in H0 as [_ H0]. apply andb_true_iff in H9 as [_ H9].
  unfold in_range in H0, H9.
  apply andb_true_iff in H0 as [H0 _]. apply andb_true_iff in H9 as [_ H9].
  apply Z.leb_le in H0, H9.
  pose proof (days_in_month_le_31 y m) as Hmax.
  split.
  - rewrite calc_month_interval_ends. f_equal.
    unfold days_between, toordinal. cbn [year month day].
    replace (days_before_year y + days_before_month y m + d9
             - (days_before_year y + days_before_month y m + d0))
      with (d9 - d0) by lia.
    destruct (Z.eqb_spec (d9 - d0) 30) as [-> | Hne]; [reflexivity |].
    apply Z.div_small. lia.
  - unfold calc_month_interval. cbn. unfold days_between.
    rewrite Z.sub_diag. reflexivity.
Qed.

Lemma interval_within_a_month_witness :
  valid_date (mkdate 2014 5 3) = true
  /\ valid_date (mkdate 2014 5 28) = true
  /\ 3 <= 28
  /\ calc_month_interval
       (mkdate 2014 5 3 :: [mkdate 2014 5 10] ++ [mkdate 2014 5 28])
     = Ok (if 28 - 3 =? 30 then 1 else 0)
  /\ calc_month_interval [mkdate 2014 5 3] = Ok 0.
Proof.
  split; [reflexivity |]. split; [reflexivity |]. split; [lia |].
  apply (interval_within_a_month 2014 5 3 28 [mkdate 2014 5 10]);
    [reflexivity | reflexivity | lia].
Defined.

(** X12. First days of two months of one year, the last not before the
    first: the interval is the difference of the month numbers or one
    less, months being counted as thirty days. *)
Theorem interval_between_months (y a b : Z) (mid : list date) :
  1 <= a -> a <= b -> b <= 12 ->
  exists r : Z,
    calc_month_interval (mkdate y a 1 :: mid ++ [mkdate y b 1]) = Ok r
    /\ b - a - 1 <= r <= b - a.
Proof.
  intros Ha Hab Hb. rewrite calc_month_interval_ends.
  eexists. split; [reflexivity |].
  unfold days_between, toordinal. cbn [year month day].
  generalize (days_before_year y). intros n.
  unfold days_before_month.
  assert (Ea : a = 1 \/ a = 2 \/ a = 3 \/ a = 4 \/ a = 5 \/ a = 6 \/ a = 7
               \/ a = 8 \/ a = 9 \/ a = 10 \/ a = 11 \/ a = 12) by lia.
  assert (Eb : b = 1 \/ b = 2 \/ b = 3 \/ b = 4 \/ b = 5 \/ b = 6 \/ b = 7
               \/ b = 8 \/ b = 9 \/ b = 10 \/ b = 11 \/ b = 12) by lia.
  destruct (is_leap y);
    repeat (destruct Ea as [-> | Ea]); try subst a;
    repeat (destruct Eb as [-> | Eb]); try subst b;
    try lia;
    repeat match goal with
           | |- context [Z.to_nat ?k] =>
               let v := eval vm_compute in (Z.to_nat k) in
               change (Z.to_nat k) with v
           end;
    cbn; Z.div_mod_to_equations; lia.
Qed.

Lemma interval_between_months_witness :
  1 <= 2 /\ 2 <= 3 /\ 3 <= 12
  /\ exists r : Z,
       calc_month_interval (mkdate 2015 2 1 :: [] ++ [mkdate 2015 3 1]) = Ok r
       /\ 3 - 2 - 1 <= r <= 3 - 2.
Proof.
  split; [lia |]. split; [lia |]. split; [lia |].
  apply (interval_between_months 2015 2 3 []); lia.
Defined.

(** ** The exact shapes of the accepted formats *)

Lemma digit_facts (c : ascii) :
  is_ascii_digit c = true ->
  Ascii.eqb c "-" = false /\ Ascii.eqb c " " = false /\ isdigit_char c = true.
Proof.
  intros H. split; [exact (digit_differs c "-" H eq_refl) |].
  split; [exact (digit_differs c " " H eq_refl) |].
  unfold isdigit_char. unfold is_ascii_digit in H. rewrite H. reflexivity.
Qed.

Ltac digit_hyps :=
  repeat match goal with
         | H : is_ascii_digit ?c = true |- _ =>
             let E1 := fresh "Eh" in
             let E2 := fresh "Es" in
             let E3 := fresh "Ed" in
             destruct (digit_facts c H) as (E1 & E2 & E3);
             revert H
         end;
  intros.

Ltac use_char_facts :=
  repeat match goal with
         | H : Ascii.eqb _ _ = false |- _ => rewrite !H
         | H : isdigit_char _ = true |- _ => rewrite !H
         | H : isalpha_char _ = true |- _ => rewrite !H
         end.

Ltac split_andb H :=
  repeat match type of H with
         | (_ && _) = true =>
             let H' := fresh "H" in
             apply andb_true_iff in H as [H H']; try split_andb H'
         end.

(** X13. Every text of the shape [YYYY-MM], four digits, a hyphen and two
    digits, is read by the fourth branch: the year and the month are the
    two numbers, the day is 1, and [datetime.date] decides, so that the
    result is a date exactly when the month is 1..12 and the year is
    not 0. *)
Theorem shape_YYYY_MM_parsed (date_ : string) (w : stdout) :
  shape_YYYY_MM date_ = true ->
  let y := decimal (slice 0 4 date_) in
  let m := decimal (slice 5 7 date_) in
  str2date_kernel date_ w
  = (w, if in_range 1 9999 y && in_range 1 12 m
        then Ok (mkdate y m 1) else Raise ValueError).
Proof.
  intros H. cbv zeta. unfold shape_YYYY_MM, len in H.
  apply andb_true_iff in H as [H H4]. apply andb_true_iff in H as [H H3].
  apply andb_true_iff in H as [H1 H2]. apply Z.eqb_eq in H1.
  destruct date_ as [| c1 [| c2 [| c3 [| c4 [| c5 [| c6 [| c7 [| ? ?]]]]]]]];
    cbn in H1; try lia.
  cbn in H3. apply Ascii.eqb_eq in H3. subst c5.
  unfold ascii_digits, slice in H2, H4. cbn in H2, H4.
  rewrite !andb_true_r in H2, H4.
  apply andb_true_iff in H2 as [D1 H2]. apply andb_true_iff in H2 as [D2 H2].
  apply andb_true_iff in H2 as [D3 D4]. apply andb_true_iff in H4 as [D6 D7].
  pose proof (digit_value c1 D1). pose proof (digit_value c2 D2).
  pose proof (digit_value c3 D3). pose proof (digit_value c4 D4).
  pose proof (digit_value c6 D6). pose proof (digit_value c7 D7).
  assert (Iy : int_of_str (String c1 (String c2 (String c3 (String c4 ""))))
               = Ok (decimal (String c1 (String c2 (String c3 (String c4 ""))))))
    by (apply int_of_str_decimal; cbn; rewrite ?D1, ?D2, ?D3, ?D4; reflexivity).
  assert (Im : int_of_str (String c6 (String c7 ""))
               = Ok (decimal (String c6 (String c7 ""))))
    by (apply int_of_str_decimal; cbn; rewrite ?D6, ?D7; reflexivity).
  digit_hyps.
  rewrite kernel_first_match. unfold pattern_table, first_match.
  set (txt := String c1 (String c2 (String c3 (String c4 (String "-"
                (String c6 (String c7 ""))))))).
  assert (G1 : guard1 txt = false) by (unfold guard1; cbn; apply andb_false_r).
  assert (G2 : guard2 txt = false)
    by (unfold guard2; cbn; use_char_facts; reflexivity).
  assert (G3 : guard3 txt = false) by reflexivity.
  assert (G4 : guard4 txt = true)
    by (unfold guard4, isdigit; cbn; use_char_facts; reflexivity).
  rewrite G1, G2, G3, G4. unfold rule_YYYY_MM. subst txt.
  cbn [split]. use_char_facts. cbn [Ascii.eqb Bool.eqb].
  cbv beta iota delta [bind lift ret fst snd unpack2 make_date load].
  rewrite Iy, Im. cbv beta iota.
  unfold slice. cbn [slice_to slice_from Nat.sub].
  unfold decimal. cbn [decimal_from].
  set (y := 10 * (10 * (10 * (10 * 0 + (ord c1 - 48)) + (ord c2 - 48))
                  + (ord c3 - 48)) + (ord c4 - 48)).
  set (m := 10 * (10 * 0 + (ord c6 - 48)) + (ord c7 - 48)).
  assert (Hy : in_range (-2147483648) 2147483647 y = true)
    by (unfold in_range; apply andb_true_iff; split; apply Z.leb_le; lia).
  assert (Hm : in_range (-2147483648) 2147483647 m = true)
    by (unfold in_range; apply andb_true_iff; split; apply Z.leb_le; lia).
  f_equal. unfold date_new, c_int, rbind. rewrite Hy, Hm.
  change (in_range (-2147483648) 2147483647 1) with true. cbv iota.
  rewrite first_day_valid.
  destruct (in_range 1 9999 y); [| reflexivity].
  destruct (in_range 1 12 m); reflexivity.
Qed.

Lemma shape_YYYY_MM_parsed_witness :
  shape_YYYY_MM "2016-13" = true
  /\ str2date_kernel "2016-13" [] = ([], Raise ValueError).
Proof.
  split; [reflexivity |].
  exact (shape_YYYY_MM_parsed "2016-13" [] eq_refl).
Defined.

Lemma date_new_small (y m d : Z) :
  in_range (-2147483648) 2147483647 y = true ->
  in_range (-2147483648) 2147483647 m = true ->
  in_range (-2147483648) 2147483647 d = true ->
  date_new (PInt y) (PInt m) (PInt d)
  = if valid_date (mkdate y m d) then Ok (mkdate y m d) else Raise ValueError.
Proof.
  intros Hy Hm Hd. unfold date_new, c_int, rbind, valid_date.
  rewrite Hy, Hm, Hd. cbn [year month day].
  destruct (in_range 1 9999 y); [| reflexivity].
  destruct (in_range 1 12 m); [| reflexivity].
  destruct (in_range 1 (days_in_month y m) d); reflexivity.
Qed.

Lemma small_in_range (n : Z) :
  0 <= n <= 9999 -> in_range (-2147483648) 2147483647 n = true.
Proof.
  intros H. unfold in_range. apply andb_true_iff. split; apply Z.leb_le; lia.
Qed.

(** X14. Every text of the shape [YYYY-MM-DD], digits in groups of four,
    two and two between hyphens, is read by the fifth branch: the result is
    the date of the three numbers when the calendar has it, and ValueError
    when it has not (a month 13, a 30th of February, a year 0). *)
Theorem shape_YYYY_MM_DD_parsed (date_ : string) (w : stdout) :
  shape_YYYY_MM_DD date_ = true ->
  let r := mkdate (decimal (slice 0 4 date_)) (decimal (slice 5 7 date_))
             (decimal (slice 8 10 date_)) in
  str2date_kernel date_ w
  = (w, if valid_date r then Ok r else Raise ValueError).
Proof.
  intros H. cbv zeta. unfold shape_YYYY_MM_DD, len in H.
  apply andb_true_iff in H as [H H6]. apply andb_true_iff in H as [H H5].
  apply andb_true_iff in H as [H H4]. apply andb_true_iff in H as [H H3].
  apply andb_true_iff in H as [H1 H2]. apply Z.eqb_eq in H1.
  destruct date_ as [| c1 [| c2 [| c3 [| c4 [| c5 [| c6 [| c7 [| c8 [| c9
                      [| c10 [| ? ?]]]]]]]]]]]; cbn in H1; try lia.
  cbn in H3, H5. apply Ascii.eqb_eq in H3, H5. subst c5 c8.
  unfold ascii_digits, slice in H2, H4, H6. cbn in H2, H4, H6.
  rewrite !andb_true_r in H2, H4, H6.
  apply andb_true_iff in H2 as [D1 H2]. apply andb_true_iff in H2 as [D2 H2].
  apply andb_true_iff in H2 as [D3 D4]. apply andb_true_iff in H4 as [D6 D7].
  apply andb_true_iff in H6 as [D9 D10].
  pose proof (digit_value c1 D1). pose proof (digit_value c2 D2).
  pose proof (digit_value c3 D3). pose proof (digit_value c4 D4).
  pose proof (digit_value c6 D6). pose proof (digit_value c7 D7).
  pose proof (digit_value c9 D9). pose proof (digit_value c10 D10).
  assert (Iy : int_of_str (String c1 (String c2 (String c3 (String c4 ""))))
               = Ok (decimal (String c1 (String c2 (String c3 (String c4 ""))))))
    by (apply int_of_str_decimal; cbn; rewrite ?D1, ?D2, ?D3, ?D4; reflexivity).
  assert (Im : int_of_str (String c6 (String c7 ""))
               = Ok (decimal (String c6 (String c7 ""))))
    by (apply int_of_str_decimal; cbn; rewrite ?D6, ?D7; reflexivity).
  assert (Id : int_of_str (String c9 (String c10 ""))
               = Ok (decimal (String c9 (String c10 ""))))
    by (apply int_of_str_decimal; cbn; rewrite ?D9, ?D10; reflexivity).
  digit_hyps.
  rewrite kernel_first_match. unfold pattern_table, first_match.
  set (txt := String c1 (String c2 (String c3 (String c4 (String "-"
                (String c6 (String c7 (String "-"
                   (String c9 (String c10 "")))))))))).
  assert (G1 : guard1 txt = false) by (unfold guard1; cbn; apply andb_false_r).
  assert (G2 : guard2 txt = false)
    by (unfold guard2; cbn; use_char_facts; reflexivity).
  assert (G3 : guard3 txt = false) by reflexivity.
  assert (G4 : guard4 txt = false) by reflexivity.
  assert (G5 : guard5 txt = true)
    by (unfold guard5, isdigit; cbn; use_char_facts; reflexivity).
  rewrite G1, G2, G3, G4, G5. unfold rule_YYYY_MM_DD. subst txt.
  cbn [split]. use_char_facts. cbn [Ascii.eqb Bool.eqb].
  cbv beta iota delta [bind lift ret fst snd unpack3 make_date load].
  rewrite Iy, Im, Id. cbv beta iota.
  unfold slice. cbn [slice_to slice_from Nat.sub].
  unfold decimal. cbn [decimal_from].
  f_equal. apply date_new_small; apply small_in_range; lia.
Qed.

Lemma shape_YYYY_MM_DD_parsed_witness :
  shape_YYYY_MM_DD "2015-02-30" = true
  /\ str2date_kernel "2015-02-30" [] = ([], Raise ValueError)
  /\ shape_YYYY_MM_DD "2016-02-29" = true
  /\ str2date_kernel "2016-02-29" [] = ([], Ok (mkdate 2016 2 29)).
Proof.
  split; [reflexivity |].
  split; [exact (shape_YYYY_MM_DD_parsed "2015-02-30" [] eq_refl) |].
  split; [reflexivity |].
  exact (shape_YYYY_MM_DD_parsed "2016-02-29" [] eq_refl).
Defined.

(** *** Month names *)

Lemma lower_letter_facts (c : ascii) :
  is_lower_letter (lower_char c) = true ->
  isalpha_char c = true /\ Ascii.eqb c "-" = false /\ Ascii.eqb c " " = false.
Proof.
  destruct c as [[] [] [] [] [] [] [] []]; vm_compute; intros H;
    try discriminate H; repeat split.
Qed.

Lemma lower_letters_facts (s : string) :
  str_forall is_lower_letter (lower s) = true ->
  str_forall isalpha_char s = true
  /\ str_contains "-" s = false /\ str_contains " " s = false.
Proof.
  induction s as [| c r IH]; cbn; [auto |].
  intros H. apply andb_true_iff in H as [Hc Hr].
  destruct (lower_letter_facts c Hc) as (Ha & Hh & Hs).
  destruct (IH Hr) as (Ha' & Hh' & Hs').
  rewrite Ha, Ha', Hh, Hh', Hs, Hs'. auto.
Qed.

Lemma position_range (x : string) (l : list string) :
  forall (k i : Z),
    position x l k = Some i ->
    In x l /\ k <= i < k + Z.of_nat (List.length l).
Proof.
  induction l as [| y r IH]; intros k i; cbn [position]; [discriminate |].
  destruct (String.eqb_spec x y) as [-> | _].
  - intros H. injection H as <-. split; [left; reflexivity |].
    cbn [List.length]. lia.
  - intros H. apply IH in H as [H1 H2]. split; [right; exact H1 |].
    cbn [List.length]. lia.
Qed.

(** A text that [strptime] takes for a month: letters only, and a month
    number between 1 and 12. *)
Lemma month_facts (names : list string) (x : string) :
  names = month_abbr \/ names = month_name ->
  is_month names x = true ->
  (exists i, strptime_month names x = Ok i /\ 1 <= i <= 12)
  /\ nonempty x = true
  /\ str_forall isalpha_char x = true
  /\ str_contains "-" x = false /\ str_contains " " x = false.
Proof.
  intros Hnames. unfold is_month, strptime_month.
  destruct (position (lower x) names 1) as [i |] eqn:Hpos; [| discriminate].
  intros _. apply position_range in Hpos as [Hin Hi].
  assert (Hlen : Z.of_nat (List.length names) = 12)
    by (destruct Hnames as [-> | ->]; reflexivity).
  assert (Hall : forallb (fun n => nonempty n && str_forall is_lower_letter n)
                   names = true)
    by (destruct Hnames as [-> | ->]; vm_compute; reflexivity).
  rewrite forallb_forall in Hall. specialize (Hall _ Hin).
  apply andb_true_iff in Hall as [Hne Hlow].
  split; [exists i; split; [reflexivity | lia] |].
  split; [destruct x; [discriminate Hne | reflexivity] |].
  exact (lower_letters_facts x Hlow).
Qed.

Ltac alpha_hyps H :=
  cbn in H; rewrite ?andb_true_r in H;
  repeat match type of H with
         | (_ && _) = true =>
             let H' := fresh "La" in
             apply andb_true_iff in H as [H' H]
         end.

(** X15. Every text of the shape [Mon-YY], a month abbreviation in any
    letter case, a hyphen and two digits, is accepted: the sixth branch
    returns the first day of that month in the year 2000 plus the two
    digits. *)
Theorem shape_Mon_YY_parsed (date_ : string) (w : stdout) :
  shape_Mon_YY date_ = true ->
  exists i : Z,
    strptime_month month_abbr (slice 0 3 date_) = Ok i
    /\ str2date_kernel date_ w
       = (w, Ok (mkdate (2000 + decimal (slice 4 6 date_)) i 1)).
Proof.
  intros H. unfold shape_Mon_YY, len in H.
  apply andb_true_iff in H as [H H4]. apply andb_true_iff in H as [H H3].
  apply andb_true_iff in H as [H1 H2]. apply Z.eqb_eq in H1.
  destruct date_ as [| c1 [| c2 [| c3 [| c4 [| c5 [| c6 [| ? ?]]]]]]];
    cbn in H1; try lia.
  cbn in H3. apply Ascii.eqb_eq in H3. subst c4.
  unfold slice in H2, H4 |- *. cbn [slice_to slice_from Nat.sub] in H2, H4 |- *.
  destruct (month_facts month_abbr _ (or_introl eq_refl) H2)
    as ((i & Hi & Hrange) & _ & Halpha & Hh & Hs).
  unfold ascii_digits in H4. cbn in H4. rewrite andb_true_r in H4.
  apply andb_true_iff in H4 as [D5 D6].
  pose proof (digit_value c5 D5). pose proof (digit_value c6 D6).
  assert (Iy : int_of_str (String c5 (String c6 ""))
               = Ok (decimal (String c5 (String c6 ""))))
    by (apply int_of_str_decimal; cbn; rewrite ?D5, ?D6; reflexivity).
  assert (Hd : isdigit (String c5 (String c6 "")) = true).
  { unfold isdigit. cbn. destruct (digit_facts c5 D5) as (_ & _ & ->).
    destruct (digit_facts c6 D6) as (_ & _ & ->). reflexivity. }
  assert (Hg : guard6 (String c1 (String c2 (String c3 (String "-"
                 (String c5 (String c6 "")))))) = true).
  { unfold guard6. cbn [slice_to slice_from]. rewrite Hd.
    unfold isalpha. rewrite Halpha. reflexivity. }
  destruct (guard6_selected _ w Hg) as [Hsel _].
  exists i. split; [exact Hi |].
  rewrite Hsel. unfold rule_Mon_YY.
  cbn in Hh. repeat (apply orb_false_iff in Hh as [? Hh]).
  digit_hyps. cbn [split]. use_char_facts. cbn [Ascii.eqb Bool.eqb].
  cbv beta iota delta [bind lift ret fst snd unpack2 make_date load].
  rewrite Hi, Iy. cbv beta iota. f_equal.
  rewrite (Z.add_comm _ 2000), date_new_small.
  - unfold valid_date. cbn [year month day].
    rewrite first_day_valid, andb_true_r.
    replace (in_range 1 9999 _) with true
      by (symmetry; unfold in_range; apply andb_true_iff;
          unfold decimal; cbn [decimal_from];
          split; apply Z.leb_le; lia).
    replace (in_range 1 12 i) with true
      by (symmetry; unfold in_range; apply andb_true_iff;
          split; apply Z.leb_le; lia).
    reflexivity.
  - unfold decimal. cbn [decimal_from]. apply small_in_range. lia.
  - apply small_in_range. lia.
  - reflexivity.
Qed.

Lemma shape_Mon_YY_parsed_witness :
  shape_Mon_YY "dEc-99" = true
  /\ exists i : Z,
       strptime_month month_abbr (slice 0 3 "dEc-99") = Ok i
       /\ str2date_kernel "dEc-99" []
          = ([], Ok (mkdate (2000 + decimal (slice 4 6 "dEc-99")) i 1)).
Proof.
  split; [reflexivity |].
  exact (shape_Mon_YY_parsed "dEc-99" [] eq_refl).
Defined.

(** X16. No text of the shape [Mon-YYYY], a month abbreviation, a hyphen
    and four digits, is ever parsed: the first branch takes it, finds the
    month, and hands the year to [datetime.date] as the text it was, which
    raises TypeError. *)
Theorem shape_Mon_YYYY_raises (date_ : string) (w : stdout) :
  shape_Mon_YYYY date_ = true ->
  str2date_kernel date_ w = (w, Raise TypeError).
Proof.
  intros H. unfold shape_Mon_YYYY, len in H.
  apply andb_true_iff in H as [H H4]. apply andb_true_iff in H as [H H3].
  apply andb_true_iff in H as [H1 H2]. apply Z.eqb_eq in H1.
  destruct date_ as [| c1 [| c2 [| c3 [| c4 [| c5 [| c6 [| c7 [| c8
                      [| ? ?]]]]]]]]]; cbn in H1; try lia.
  cbn in H3. apply Ascii.eqb_eq in H3. subst c4.
  unfold slice in H2, H4. cbn [slice_to slice_from Nat.sub] in H2, H4.
  destruct (month_facts month_abbr _ (or_introl eq_refl) H2)
    as ((i & Hi & _) & _ & _ & Hh & _).
  unfold ascii_digits in H4. cbn in H4. rewrite andb_true_r in H4.
  apply andb_true_iff in H4 as [D5 H4]. apply andb_true_iff in H4 as [D6 H4].
  apply andb_true_iff in H4 as [D7 D8].
  cbn in Hh. repeat (apply orb_false_iff in Hh as [? Hh]).
  digit_hyps.
  rewrite kernel_first_match. unfold pattern_table, first_match.
  set (txt := String c1 (String c2 (String c3 (String "-" (String c5
                (String c6 (String c7 (String c8 "")))))))).
  assert (G1 : guard1 txt = true)
    by (unfold guard1; cbn; use_char_facts; reflexivity).
  rewrite G1. unfold rule_Mon_YYYY. subst txt.
  cbn [split]. use_char_facts. cbn [Ascii.eqb Bool.eqb].
  cbv beta iota delta [bind lift ret fst snd unpack2 make_date load].
  rewrite Hi. reflexivity.
Qed.

Lemma shape_Mon_YYYY_raises_witness :
  shape_Mon_YYYY "Mar-2017" = true
  /\ str2date_kernel "Mar-2017" [] = ([], Raise TypeError).
Proof.
  split; [reflexivity |].
  exact (shape_Mon_YYYY_raises "Mar-2017" [] eq_refl).
Defined.

Lemma split_single (sep : ascii) (s : string) :
  str_contains sep s = false -> split sep s = [s].
Proof.
  induction s as [| c r IH]; cbn; [reflexivity |].
  intros H. apply orb_false_iff in H as [H1 H2].
  rewrite H1, (IH H2). reflexivity.
Qed.

Lemma contains_split (c sep : ascii) (s : string) :
  Ascii.eqb sep c = false ->
  str_contains c s = existsb (str_contains c) (split sep s).
Proof.
  intros Hc. induction s as [| x r IH]; cbn; [reflexivity |].
  destruct (Ascii.eqb_spec x sep) as [-> | _].
  - rewrite Hc. cbn. exact IH.
  - destruct (split sep r) as [| h t]; cbn in *.
    + rewrite IH, !orb_false_r. reflexivity.
    + rewrite IH, orb_assoc. reflexivity.
Qed.

(** X17. Every text of the shape [Month YYYY], a full month name in any
    letter case, a space and four digits, is read by the second branch: it
    returns the first day of that month of that year, and raises ValueError
    for the year 0000 alone. *)
Theorem shape_Month_YYYY_parsed (date_ : string) (w : stdout) :
  shape_Month_YYYY date_ = true ->
  exists (m y : string) (i : Z),
    split " " date_ = [m; y]
    /\ strptime_month month_name m = Ok i
    /\ str2date_kernel date_ w
       = (w, if decimal y =? 0 then Raise ValueError
             else Ok (mkdate (decimal y) i 1)).
Proof.
  intros H. unfold shape_Month_YYYY in H.
  destruct (split " " date_) as [| m [| y [| ? ?]]] eqn:Hsplit;
    try discriminate.
  apply andb_true_iff in H as [Hm Hy].
  destruct (month_facts month_name m (or_intror eq_refl) Hm)
    as ((i & Hi & Hrange) & _ & _ & Hh & _).
  unfold ascii_digits in Hy. apply andb_true_iff in Hy as [Hlen Hd].
  apply Nat.eqb_eq in Hlen.
  exists m, y, i. split; [reflexivity |]. split; [exact Hi |].
  assert (G1 : guard1 date_ = false).
  { unfold guard1.
    rewrite (contains_split "-" " " date_ eq_refl), Hsplit. cbn.
    rewrite Hh, (digits_exclude "-" y eq_refl Hd). reflexivity. }
  assert (G2 : guard2 date_ = true).
  { unfold guard2. destruct (str_contains " " date_) eqn:Hc; [reflexivity |].
    rewrite (split_single _ _ Hc) in Hsplit. discriminate. }
  assert (Iy : int_of_str y = Ok (decimal y))
    by (apply int_of_str_decimal; [destruct y; [discriminate | reflexivity]
                                  | exact Hd]).
  rewrite kernel_first_match. unfold pattern_table, first_match.
  rewrite G1, G2. unfold rule_Month_YYYY. rewrite Hsplit.
  cbv beta iota delta [bind lift ret fst snd unpack2 make_date load].
  rewrite Hi, Iy. cbv beta iota. f_equal.
  destruct y as [| c1 [| c2 [| c3 [| c4 [| ? ?]]]]]; try discriminate.
  cbn in Hd. rewrite andb_true_r in Hd.
  apply andb_true_iff in Hd as [D1 Hd]. apply andb_true_iff in Hd as [D2 Hd].
  apply andb_true_iff in Hd as [D3 D4].
  apply digit_value in D1, D2, D3, D4.
  unfold decimal. cbn [decimal_from].
  set (n := 10 * (10 * (10 * (10 * 0 + (ord c1 - 48)) + (ord c2 - 48))
                  + (ord c3 - 48)) + (ord c4 - 48)).
  assert (Hn : 0 <= n <= 9999) by (subst n; lia).
  rewrite date_new_small;
    [| apply small_in_range; lia | apply small_in_range; lia | reflexivity].
  unfold valid_date. cbn [year month day].
  rewrite first_day_valid, andb_true_r.
  replace (in_range 1 12 i) with true
    by (symmetry; unfold in_range; apply andb_true_iff;
        split; apply Z.leb_le; lia).
  rewrite andb_true_r. unfold in_range.
  destruct (Z.eqb_spec n 0) as [-> | Hne]; [reflexivity |].
  replace (1 <=? n) with true by (symmetry; apply Z.leb_le; lia).
  replace (n <=? 9999) with true by (symmetry; apply Z.leb_le; lia).
  reflexivity.
Qed.

Lemma shape_Month_YYYY_parsed_witness :
  shape_Month_YYYY "september 1999" = true
  /\ exists (m y : string) (i : Z),
       split " " "september 1999" = [m; y]
       /\ strptime_month month_name m = Ok i
       /\ str2date_kernel "september 1999" []
          = ([], if decimal y =? 0 then Raise ValueError
                 else Ok (mkdate (decimal y) i 1)).
Proof.
  split; [reflexivity |].
  exact (shape_Month_YYYY_parsed "september 1999" [] eq_refl).
Defined.

(** ** Two more facts on the texts and the sequences [as_date] is given *)

(** X18. A list, a Series or an array of more than one element, each an
    [int], a numpy float64, a text that is not all digits or a text of
    digits that [str(int(...))] leaves as it is, is normalised element by
    element from the first: the result is the list of what [as_date] gives
    for each element, and the first element that raises ends the call with
    its exception. *)
Theorem plain_sequence_elementwise (l : list pyobj) (w : stdout) :
  (1 < List.length l)%nat ->
  forallb plain_element l = true ->
  as_date (PList l) w = bind (each l) (fun ds => ret (PList ds)) w
  /\ as_date (PSeries l) w = as_date (PList l) w
  /\ as_date (PNdarray l) w = as_date (PList l) w.
Proof.
  intros Hlen Hplain.
  split; [exact (sequence_of_plain_elements l w Hlen Hplain) |].
  split; reflexivity.
Qed.

Lemma plain_sequence_elementwise_witness :
  (1 < List.length [PInt 201405; PStr "2016-07"; PNpFloat64 float_201406])%nat
  /\ forallb plain_element
       [PInt 201405; PStr "2016-07"; PNpFloat64 float_201406] = true
  /\ as_date (PList [PInt 201405; PStr "2016-07"; PNpFloat64 float_201406]) []
     = bind (each [PInt 201405; PStr "2016-07"; PNpFloat64 float_201406])
         (fun ds => ret (PList ds)) []
  /\ as_date (PSeries [PInt 201405; PStr "2016-07"; PNpFloat64 float_201406]) []
     = as_date (PList [PInt 201405; PStr "2016-07"; PNpFloat64 float_201406]) []
  /\ as_date (PNdarray [PInt 201405; PStr "2016-07"; PNpFloat64 float_201406]) []
     = as_date (PList [PInt 201405; PStr "2016-07"; PNpFloat64 float_201406]) [].
Proof.
  split; [cbn; lia |]. split; [reflexivity |].
  apply (plain_sequence_elementwise
           [PInt 201405; PStr "2016-07"; PNpFloat64 float_201406] []);
    [cbn; lia | reflexivity].
Defined.

(** X19. No text of eight characters that holds a hyphen is ever parsed,
    whatever else it holds: the first branch takes it, and either the
    split, the month name or the year left as a text makes the call
    raise. *)
Theorem hyphenated_eight_never_parsed (date_ : string) (w : stdout) :
  str_contains "-" date_ = true ->
  len date_ = 8 ->
  is_Ok (snd (str2date_kernel date_ w)) = false
  /\ fst (str2date_kernel date_ w) = w.
Proof.
  intros Hh Hlen.
  assert (Hg : guard1 date_ = true)
    by (unfold guard1; rewrite Hh, Hlen; reflexivity).
  split; [exact (first_branch_never_returns date_ w Hg) |].
  assert (Hn : no_guard date_ = false)
    by (unfold no_guard; rewrite Hg; reflexivity).
  destruct (kernel_silent date_ Hn) as [r Hr]. rewrite Hr. reflexivity.
Qed.

Lemma hyphenated_eight_never_parsed_witness :
  str_contains "-" "2015-1-1" = true
  /\ len "2015-1-1" = 8
  /\ is_Ok (snd (str2date_kernel "2015-1-1" [])) = false
  /\ fst (str2date_kernel "2015-1-1" []) = [].
Proof.
  split; [reflexivity |]. split; [reflexivity |].
  apply (hyphenated_eight_never_parsed "2015-1-1" []); reflexivity.
Defined.
